(** * hapi-bookshelf-api: the books controller, embedded and verified

    The development follows [src/controller/books-controller.js].  The five
    request handlers work on one module-level array [books]; here each of
    them is a function that takes the array and gives back the response
    together with the array it leaves behind.

    - [Js]: the part of the JavaScript semantics the handlers rely on
      (values of a parsed JSON payload, [<], [===], [Number], [!],
      [toLowerCase], [includes], and the array methods).
    - [Books]: the record, the responses and the five handlers.
    - the remaining sections state and prove the properties of the
      catalog. *)

From Stdlib Require Import QArith Ascii String.
From stdpp Require Import base option list strings.

Set Default Proof Using "Type".
Open Scope Z_scope.

(* ===================================================================== *)
(** * JavaScript values and operators                                     *)
(* ===================================================================== *)

Module Js.

(** ** Numbers

    A JavaScript number is an IEEE 754 binary64.  Every finite binary64 is
    a rational, and the comparisons the handlers use agree with the
    comparisons of rationals, so a finite number is kept as its exact value
    (both zeros are the rational 0: [<], [===] and [!] do not tell them
    apart). *)
Inductive number : Type :=
| NaN
| Infinity (negative : bool)
| Finite (q : Q).

(** Number::lessThan; [None] is the answer "undefined" that a NaN operand
    gives. *)
Definition number_lessThan (x y : number) : option bool :=
  match x, y with
  | NaN, _ | _, NaN => None
  | Infinity false, _ => Some false
  | _, Infinity true => Some false
  | Infinity true, _ => Some true
  | _, Infinity false => Some true
  | Finite p, Finite q =>
      Some match p ?= q with Lt => true | _ => false end
  end%Q.

(** [x === y] on numbers (Number::equal). *)
Definition number_eq (x y : number) : bool :=
  match x, y with
  | NaN, _ | _, NaN => false
  | Infinity a, Infinity b => Bool.eqb a b
  | Finite p, Finite q => Qeq_bool p q
  | _, _ => false
  end.

(** ToBoolean on a number: [+0], [-0] and [NaN] are falsy. *)
Definition number_to_boolean (x : number) : bool :=
  match x with
  | NaN => false
  | Infinity _ => true
  | Finite q => negb (Qeq_bool q 0)
  end.

(** *** Rounding a real to binary64 (round to nearest, ties to even) *)

(** [2^e] as a rational, for any integer [e]. *)
Definition Qpow2 (e : Z) : Q :=
  match e with
  | Zneg p => 1 # (2 ^ p)
  | _ => inject_Z (2 ^ e)
  end.

(** Nearest integer to [n / d], ties to the even one ([0 <= n], [0 < d]). *)
Definition div_half_even (n d : Z) : Z :=
  let (q, r) := Z.div_eucl n d in
  match 2 * r ?= d with
  | Lt => q
  | Gt => q + 1
  | Eq => if Z.even q then q else q + 1
  end.

(** [floor (log2 (n / d))] for positive [n] and [d]. *)
Definition floor_log2 (n d : Z) : Z :=
  let k := Z.log2 n - Z.log2 d in
  let above := if 0 <=? k then d * 2 ^ k <=? n else d <=? n * 2 ^ (- k) in
  if above then k else k - 1.

(** The binary64 nearest to [n / d] for positive [n], [d]: the spacing of
    the binary64 numbers around a value of binary exponent [E] is
    [2^(E - 52)], never finer than [2^-1074]; what rounds to [2^1024] is
    an infinity. *)
Definition round_pos (n d : Z) : number :=
  let e := Z.max (floor_log2 n d - 52) (-1074) in
  let m := if 0 <=? e then div_half_even n (d * 2 ^ e)
           else div_half_even (n * 2 ^ (- e)) d in
  if (971 <? e) || ((e =? 971) && (m =? 2 ^ 53)) then Infinity false
  else Finite (Qred (inject_Z m * Qpow2 e)).

Definition number_opp (x : number) : number :=
  match x with
  | NaN => NaN
  | Infinity s => Infinity (negb s)
  | Finite q => Finite (- q)
  end.

(** The Number value for the real [m * 10^e], [0 <= m]. *)
Definition round_decimal (m e : Z) : number :=
  if m =? 0 then Finite 0
  else if 0 <=? e then round_pos (m * 10 ^ e) 1
  else round_pos m (10 ^ (- e)).

(** ** Strings

    A string is its sequence of code units; the model covers the code
    units below 256, one [ascii] each. *)

Definition code (c : ascii) : Z := Z.of_N (N_of_ascii c).

(** WhiteSpace and LineTerminator code units below 256: TAB, LF, VT, FF,
    CR, SP and NBSP. *)
Definition is_white_space (c : ascii) : bool :=
  let n := code c in
  ((9 <=? n) && (n <=? 13)) || (n =? 32) || (n =? 160).

(** [String.prototype.toLowerCase], on one code unit: A-Z, and the
    Latin-1 capitals U+00C0..U+00DE without the multiplication sign. *)
Definition lower_unit (c : ascii) : ascii :=
  let n := code c in
  if ((65 <=? n) && (n <=? 90))
     || ((192 <=? n) && (n <=? 222) && negb (n =? 215))
  then ascii_of_N (Z.to_N (n + 32)) else c.

Fixpoint toLowerCase (s : string) : string :=
  match s with
  | EmptyString => EmptyString
  | String c r => String (lower_unit c) (toLowerCase r)
  end.

(** [hay.includes(needle)]: [needle] occurs in [hay] at some position. *)
Fixpoint includes (hay needle : string) : bool :=
  String.prefix needle hay
  || match hay with
     | EmptyString => false
     | String _ r => includes r needle
     end.

(** ** [Number(s)] for a string (StringToNumber)

    The StringNumericLiteral grammar: optional white space around either
    nothing (the value 0), a signed decimal literal ([Infinity], digits with
    an optional fraction and exponent) or an unsigned binary, octal or
    hexadecimal integer literal.  Anything else is [NaN]. *)

Definition digit_of (base : Z) (c : ascii) : option Z :=
  let n := code c in
  let v := if (48 <=? n) && (n <=? 57) then n - 48
           else if (97 <=? n) && (n <=? 102) then n - 87
           else if (65 <=? n) && (n <=? 70) then n - 55
           else base in
  if v <? base then Some v else None.

(** The longest prefix of digits of [s], most significant first, and what
    follows it. *)
Fixpoint span_digits (base : Z) (s : string) : list Z * string :=
  match s with
  | EmptyString => ([], EmptyString)
  | String c r =>
      match digit_of base c with
      | Some d => let (ds, rest) := span_digits base r in (d :: ds, rest)
      | None => ([], s)
      end
  end.

Definition digits_value (base : Z) (ds : list Z) : Z :=
  fold_left (fun acc d => acc * base + d) ds 0.

Fixpoint trim_start (s : string) : string :=
  match s with
  | String c r => if is_white_space c then trim_start r else s
  | EmptyString => EmptyString
  end.

Definition rev_string (s : string) : string :=
  string_of_list_ascii (rev (list_ascii_of_string s)).

Definition trim (s : string) : string :=
  rev_string (trim_start (rev_string (trim_start s))).

(** A sign, if any, and what follows it. *)
Definition split_sign (s : string) : bool * string :=
  match s with
  | String "+" r => (false, r)
  | String "-" r => (true, r)
  | _ => (false, s)
  end.

(** ExponentPart_opt up to the end of the literal. *)
Definition parse_exponent (s : string) : option Z :=
  match s with
  | EmptyString => Some 0
  | String c r =>
      if (c =? "e")%char || (c =? "E")%char then
        let (neg, r') := split_sign r in
        match span_digits 10 r' with
        | ((_ :: _) as ds, EmptyString) =>
            Some (if neg then - digits_value 10 ds else digits_value 10 ds)
        | _ => None
        end
      else None
  end.

(** StrUnsignedDecimalLiteral. *)
Definition parse_unsigned_decimal (s : string) : number :=
  if (s =? "Infinity")%string then Infinity false else
  let (ip, r1) := span_digits 10 s in
  let (fp, r2) := match r1 with
                  | String "." r => span_digits 10 r
                  | _ => ([], r1)
                  end in
  match ip ++ fp with
  | [] => NaN
  | ds =>
      match parse_exponent r2 with
      | Some e => round_decimal (digits_value 10 ds) (e - Z.of_nat (length fp))
      | None => NaN
      end
  end.

(** NonDecimalIntegerLiteral after its two-character prefix. *)
Definition parse_integer (base : Z) (s : string) : number :=
  match span_digits base s with
  | ((_ :: _) as ds, EmptyString) => round_decimal (digits_value base ds) 0
  | _ => NaN
  end.

Definition StringToNumber (s : string) : number :=
  match trim s with
  | EmptyString => Finite 0
  | String "0" (String c r) as t =>
      if (c =? "x")%char || (c =? "X")%char then parse_integer 16 r
      else if (c =? "o")%char || (c =? "O")%char then parse_integer 8 r
      else if (c =? "b")%char || (c =? "B")%char then parse_integer 2 r
      else parse_unsigned_decimal t
  | t =>
      let (neg, u) := split_sign t in
      if neg then number_opp (parse_unsigned_decimal u)
      else parse_unsigned_decimal u
  end.

(** ** Values

    What a field of a parsed JSON payload can hold when it is not an array
    or an object, together with [undefined], the value of a field that is
    absent. *)
Inductive value : Type :=
| VUndefined
| VNull
| VBool (b : bool)
| VNum (x : number)
| VStr (s : string).

(** ToNumber. *)
Definition ToNumber (v : value) : number :=
  match v with
  | VUndefined => NaN
  | VNull => Finite 0
  | VBool b => Finite (if b then 1 else 0)
  | VNum x => x
  | VStr s => StringToNumber s
  end.

(** IsLessThan on two primitive values: two strings are compared code
    unit by code unit, everything else as numbers. *)
Definition IsLessThan (x y : value) : option bool :=
  match x, y with
  | VStr s, VStr t => Some (String.ltb s t)
  | _, _ => number_lessThan (ToNumber x) (ToNumber y)
  end.

(** [x < y]: true when IsLessThan says so, false also when it is
    undefined. *)
Definition lt (x y : value) : bool :=
  match IsLessThan x y with
  | Some true => true
  | _ => false
  end.

(** [x > y]: [y < x]. *)
Definition gt (x y : value) : bool := lt y x.

(** [x <= y]: true when IsLessThan of [y] and [x] is false, and false also
    when it is undefined. *)
Definition le (x y : value) : bool :=
  match IsLessThan y x with
  | Some false => true
  | _ => false
  end.

(** [x === y] (IsStrictlyEqual). *)
Definition strict_eq (x y : value) : bool :=
  match x, y with
  | VUndefined, VUndefined => true
  | VNull, VNull => true
  | VBool a, VBool b => Bool.eqb a b
  | VNum a, VNum b => number_eq a b
  | VStr s, VStr t => String.eqb s t
  | _, _ => false
  end.

(** [!!Number(s)] for a string [s]. *)
Definition truthy_number (s : string) : bool :=
  number_to_boolean (StringToNumber s).

(** ** Query parameters

    What hapi hands over for a parameter of the query string: its value, a
    string, or, when the URL has the parameter more than once, the array
    of its values. *)
Inductive param : Type :=
| Single (s : string)
| Repeated (values : list string).

(** [Number(p)]: an array is first turned into a string, its elements
    joined by commas. *)
Definition Number_of_param (p : param) : number :=
  match p with
  | Single s => StringToNumber s
  | Repeated values => StringToNumber (String.concat "," values)
  end.

(** [!!Number(p)]. *)
Definition truthy_param (p : param) : bool :=
  number_to_boolean (Number_of_param p).

(** [p.toLowerCase()]: an array has no such method, a TypeError
    ([None]). *)
Definition param_toLowerCase (p : param) : option string :=
  match p with
  | Single s => Some (toLowerCase s)
  | Repeated _ => None
  end.

(** ** Array methods *)

Section Arrays.
Context {A : Type}.

(** [a.findIndex(p)], with [None] for [-1]. *)
Fixpoint findIndex (p : A -> bool) (a : list A) : option nat :=
  match a with
  | [] => None
  | x :: r => if p x then Some 0%nat else S <$> findIndex p r
  end.

(** [a.filter(p)] for a callback that may throw: the first exception
    ends the call. *)
Fixpoint filter_throwing (p : A -> option bool) (a : list A)
  : option (list A) :=
  match a with
  | [] => Some []
  | x :: r =>
      keep ← p x;
      r' ← filter_throwing p r;
      Some (if keep : bool then x :: r' else r')
  end.
End Arrays.

End Js.

(* ===================================================================== *)
(** * The catalog: records, responses and request handlers                *)
(* ===================================================================== *)

(** The fields that the destructuring of [request.payload] binds: a field
    that the payload does not have is [Js.VUndefined].  The payload itself
    is [Some] of these, or [None] when the request has no body and
    [request.payload] is [null]. *)
Module Payload.
Record t : Type := Make {
  name : Js.value;
  year : Js.value;
  author : Js.value;
  summary : Js.value;
  publisher : Js.value;
  pageCount : Js.value;
  readPage : Js.value;
  reading : Js.value
}.
End Payload.

(** An element of the [books] array. *)
Module Book.
Record t : Type := Make {
  id : string;
  name : Js.value;
  year : Js.value;
  author : Js.value;
  summary : Js.value;
  publisher : Js.value;
  pageCount : Js.value;
  readPage : Js.value;
  finished : bool;
  reading : Js.value;
  insertedAt : string;
  updatedAt : string
}.
End Book.

(** The query string of GET /books: each parameter is absent, a string,
    or the array of a repeated parameter. *)
Module Query.
Record t : Type := Make {
  name : option Js.param;
  reading : option Js.param;
  finished : option Js.param
}.
End Query.

(** An element of [data.books] in the response of GET /books. *)
Module Summary.
Record t : Type := Make {
  id : string;
  name : Js.value;
  publisher : Js.value
}.
End Summary.

Module Books.

(** The responses of the handlers, one constructor for each response the
    source builds; [code] is the HTTP status it is given. *)
Inductive Response : Type :=
| Created (bookId : string)       (* 'Buku berhasil ditambahkan' *)
| Listed (books : list Summary.t)
| Found (book : Book.t)
| Updated                         (* 'Buku berhasil diperbarui' *)
| Deleted                         (* 'Buku berhasil dihapus' *)
| MissingName                     (* '... Mohon isi nama buku' *)
| PageCountExceeded               (* '... readPage tidak boleh lebih besar dari pageCount' *)
| NotFound                        (* '... tidak ditemukan' *)
| InsertionFailed                 (* 'Buku gagal ditambahkan' *)
| Unexpected.                     (* the catch clause: err.message *)

Definition code (r : Response) : Z :=
  match r with
  | Created _ => 201
  | Listed _ | Found _ | Updated | Deleted => 200
  | MissingName | PageCountExceeded => 400
  | NotFound => 404
  | InsertionFailed | Unexpected => 500
  end.

(** [(book) => book.id === id] *)
Definition has_id (id : string) (book : Book.t) : bool :=
  String.eqb (Book.id book) id.

(** [addBookController]; [id] is what [nanoid(16)] returns and
    [insertedAt] is [new Date().toISOString()].  The destructuring of a
    [null] payload throws, which the catch clause answers. *)
Definition addBookController (id insertedAt : string)
    (payload : option Payload.t) (books : list Book.t)
    : Response * list Book.t :=
  match payload with
  | None => (Unexpected, books)
  | Some payload =>
  if Js.strict_eq (Payload.name payload) Js.VUndefined then (MissingName, books)
  else if Js.lt (Payload.pageCount payload) (Payload.readPage payload)
  then (PageCountExceeded, books)
  else
    let updatedAt := insertedAt in
    let finished :=
      Js.strict_eq (Payload.pageCount payload) (Payload.readPage payload) in
    let newBook :=
      {| Book.id := id;
         Book.name := Payload.name payload;
         Book.year := Payload.year payload;
         Book.author := Payload.author payload;
         Book.summary := Payload.summary payload;
         Book.publisher := Payload.publisher payload;
         Book.pageCount := Payload.pageCount payload;
         Book.readPage := Payload.readPage payload;
         Book.finished := finished;
         Book.reading := Payload.reading payload;
         Book.insertedAt := insertedAt;
         Book.updatedAt := updatedAt |} in
    let books := books ++ [newBook] in
    let isSuccess := (0 <? length (List.filter (has_id id) books))%nat in
    if isSuccess then (Created id, books) else (InsertionFailed, books)
  end.

(** [book.name.toLowerCase()]: a TypeError ([None]) unless the stored name
    is a string. *)
Definition name_toLowerCase (book : Book.t) : option string :=
  match Book.name book with
  | Js.VStr s => Some (Js.toLowerCase s)
  | _ => None
  end.

Definition summary_of (book : Book.t) : Summary.t :=
  {| Summary.id := Book.id book;
     Summary.name := Book.name book;
     Summary.publisher := Book.publisher book |}.

(** [getAllBooksController]: the three filters one after the other, the
    catch clause around them.  The callback of the name filter throws on a
    stored name that is not a string, and on a filter that is an array. *)
Definition getAllBooksController (query : Query.t) (books : list Book.t)
    : Response :=
  let queriedBooks := Some books in
  let queriedBooks :=
    match Query.name query with
    | Some name =>
        queriedBooks ≫= Js.filter_throwing (fun book =>
          lowered ← name_toLowerCase book;
          needle ← Js.param_toLowerCase name;
          Some (Js.includes lowered needle))
    | None => queriedBooks
    end in
  let queriedBooks :=
    match Query.reading query with
    | Some reading =>
        List.filter (fun book =>
          Js.strict_eq (Book.reading book) (Js.VBool (Js.truthy_param reading)))
        <$> queriedBooks
    | None => queriedBooks
    end in
  let queriedBooks :=
    match Query.finished query with
    | Some finished =>
        List.filter (fun book =>
          Js.strict_eq (Js.VBool (Book.finished book))
                       (Js.VBool (Js.truthy_param finished)))
        <$> queriedBooks
    | None => queriedBooks
    end in
  match queriedBooks with
  | Some queriedBooks => Listed (map summary_of queriedBooks)
  | None => Unexpected
  end.

(** [getBookByIdController] *)
Definition getBookByIdController (id : string) (books : list Book.t)
    : Response :=
  match List.filter (has_id id) books with
  | book :: _ => Found book
  | [] => NotFound
  end.

(** [{ ...old, name, year, ..., finished, reading, updatedAt }] *)
Definition overwrite (payload : Payload.t) (finished : bool)
    (updatedAt : string) (old : Book.t) : Book.t :=
  {| Book.id := Book.id old;
     Book.name := Payload.name payload;
     Book.year := Payload.year payload;
     Book.author := Payload.author payload;
     Book.summary := Payload.summary payload;
     Book.publisher := Payload.publisher payload;
     Book.pageCount := Payload.pageCount payload;
     Book.readPage := Payload.readPage payload;
     Book.finished := finished;
     Book.reading := Payload.reading payload;
     Book.insertedAt := Book.insertedAt old;
     Book.updatedAt := updatedAt |}.

(** [editBookByIdController]; [updatedAt] is [new Date().toISOString()].
    The payload is destructured before the id is looked for, so a [null]
    payload ends in the catch clause whatever the id. *)
Definition editBookByIdController (id updatedAt : string)
    (payload : option Payload.t) (books : list Book.t)
    : Response * list Book.t :=
  match payload with
  | None => (Unexpected, books)
  | Some payload =>
  match Js.findIndex (has_id id) books with
  | Some index =>
      if Js.strict_eq (Payload.name payload) Js.VUndefined
      then (MissingName, books)
      else if Js.lt (Payload.pageCount payload) (Payload.readPage payload)
      then (PageCountExceeded, books)
      else
        let finished :=
          Js.strict_eq (Payload.pageCount payload) (Payload.readPage payload) in
        (Updated, alter (overwrite payload finished updatedAt) index books)
  | None => (NotFound, books)
  end
  end.

(** [deleteBookByIdController]: [books.splice(index, 1)]. *)
Definition deleteBookByIdController (id : string) (books : list Book.t)
    : Response * list Book.t :=
  match Js.findIndex (has_id id) books with
  | Some index => (Deleted, delete index books)
  | None => (NotFound, books)
  end.

End Books.

(* ===================================================================== *)
(** * The vocabulary of the specification                                 *)
(* ===================================================================== *)

Module Catalog.

(** No record of the collection carries [id]. *)
Definition absent (id : string) (books : list Book.t) : Prop :=
  Forall (λ book, Book.id book ≠ id) books.

(** Some record of the collection carries [id]. *)
Definition present (id : string) (books : list Book.t) : Prop :=
  Exists (λ book, Book.id book = id) books.

(** The two responses of a failed validation. *)
Definition validation_error (response : Books.Response) : Prop :=
  response = Books.MissingName ∨ response = Books.PageCountExceeded.

(** A payload that passes both checks of create and update: the name is
    there, and [readPage > pageCount] does not hold. *)
Definition valid (payload : Payload.t) : Prop :=
  Payload.name payload ≠ Js.VUndefined
  ∧ Js.gt (Payload.readPage payload) (Payload.pageCount payload) = false.

(** The record that [addBookController] builds. *)
Definition new_book (id now : string) (payload : Payload.t) : Book.t :=
  {| Book.id := id;
     Book.name := Payload.name payload;
     Book.year := Payload.year payload;
     Book.author := Payload.author payload;
     Book.summary := Payload.summary payload;
     Book.publisher := Payload.publisher payload;
     Book.pageCount := Payload.pageCount payload;
     Book.readPage := Payload.readPage payload;
     Book.finished :=
       Js.strict_eq (Payload.pageCount payload) (Payload.readPage payload);
     Book.reading := Payload.reading payload;
     Book.insertedAt := now;
     Book.updatedAt := now |}.

(** The stored name is a string. *)
Definition named_by_string (book : Book.t) : Prop :=
  ∃ s, Book.name book = Js.VStr s.

(** The filters of the list operation as the specification words them:
    the lower-cased stored name contains the lower-cased [name] filter, the
    [reading] and [finished] fields equal the boolean of their filter, and
    a filter that is absent asks nothing. *)
Definition name_contains (needle : string) (book : Book.t) : bool :=
  match Book.name book with
  | Js.VStr s => Js.includes (Js.toLowerCase s) (Js.toLowerCase needle)
  | _ => false
  end.

Definition satisfies (query : Query.t) (book : Book.t) : bool :=
  match Query.name query with
  | Some (Js.Single name) => name_contains name book
  | Some (Js.Repeated _) => false
  | None => true
  end
  && match Query.reading query with
     | Some reading =>
         Js.strict_eq (Book.reading book) (Js.VBool (Js.truthy_param reading))
     | None => true
     end
  && match Query.finished query with
     | Some finished => Bool.eqb (Book.finished book) (Js.truthy_param finished)
     | None => true
     end.

(** When the name filter can be applied to the collection: there is none,
    or it is a string and so is every stored name, or there is no record
    to apply it to. *)
Definition name_filter_applies (query : Query.t) (books : list Book.t)
    : Prop :=
  match Query.name query with
  | None => True
  | Some (Js.Single _) => Forall named_by_string books
  | Some (Js.Repeated _) => books = []
  end.

(** The stored name is not [undefined]. *)
Definition name_defined (book : Book.t) : Prop :=
  Book.name book ≠ Js.VUndefined.

(** A query with at most the filters given. *)
Definition query_reading (reading : string) : Query.t :=
  {| Query.name := None; Query.reading := Some (Js.Single reading);
     Query.finished := None |}.

Definition query_finished (finished : string) : Query.t :=
  {| Query.name := None; Query.reading := None;
     Query.finished := Some (Js.Single finished) |}.

Definition query_name (name : string) : Query.t :=
  {| Query.name := Some (Js.Single name); Query.reading := None;
     Query.finished := None |}.

(** Two records that differ at most in [updatedAt]. *)
Definition same_except_updatedAt (r1 r2 : Book.t) : Prop :=
  r2 = {| Book.id := Book.id r1;
          Book.name := Book.name r1;
          Book.year := Book.year r1;
          Book.author := Book.author r1;
          Book.summary := Book.summary r1;
          Book.publisher := Book.publisher r1;
          Book.pageCount := Book.pageCount r1;
          Book.readPage := Book.readPage r1;
          Book.finished := Book.finished r1;
          Book.reading := Book.reading r1;
          Book.insertedAt := Book.insertedAt r1;
          Book.updatedAt := Book.updatedAt r2 |}.

(** The requests of the five routes, each with what its handler reads
    from the outside. *)
Inductive Request : Type :=
| Post (id insertedAt : string) (payload : option Payload.t)
| GetAll (query : Query.t)
| GetOne (id : string)
| Put (id updatedAt : string) (payload : option Payload.t)
| Delete (id : string).

Definition handle (request : Request) (books : list Book.t)
    : Books.Response * list Book.t :=
  match request with
  | Post id insertedAt payload =>
      Books.addBookController id insertedAt payload books
  | GetAll query => (Books.getAllBooksController query books, books)
  | GetOne id => (Books.getBookByIdController id books, books)
  | Put id updatedAt payload =>
      Books.editBookByIdController id updatedAt payload books
  | Delete id => Books.deleteBookByIdController id books
  end.

(** The collections the server can hold: it starts empty and changes
    only through the handlers. *)
Inductive reachable : list Book.t → Prop :=
| reachable_start : reachable []
| reachable_step request books :
    reachable books → reachable (handle request books).2.

End Catalog.

(** Concrete payloads and records for the examples below. *)
Module Samples.

Definition number (n : Z) : Js.value := Js.VNum (Js.Finite (inject_Z n)).

(** [{ name: 'Buku A', ..., pageCount, readPage, reading: false }] *)
Definition buku_a (pageCount readPage : Z) : Payload.t :=
  {| Payload.name := Js.VStr "Buku A";
     Payload.year := number 2010;
     Payload.author := Js.VStr "John Doe";
     Payload.summary := Js.VStr "Lorem ipsum dolor sit amet";
     Payload.publisher := Js.VStr "Dicoding Indonesia";
     Payload.pageCount := number pageCount;
     Payload.readPage := number readPage;
     Payload.reading := Js.VBool false |}.

(** A payload with only the fields given. *)
Definition only (name pageCount readPage reading : Js.value) : Payload.t :=
  {| Payload.name := name;
     Payload.year := Js.VUndefined;
     Payload.author := Js.VUndefined;
     Payload.summary := Js.VUndefined;
     Payload.publisher := Js.VUndefined;
     Payload.pageCount := pageCount;
     Payload.readPage := readPage;
     Payload.reading := reading |}.

Definition time_1 : string := "2021-03-04T09:11:44.598Z".
Definition time_2 : string := "2021-03-05T17:30:02.120Z".

(** The two titles of the specification's example. *)
Definition titled (title : string) (reading : bool) : Payload.t :=
  only (Js.VStr title) (number 100) (number 50) (Js.VBool reading).

(** The collection after one accepted create. *)
Definition after_post (id : string) (payload : Payload.t) : list Book.t :=
  (Books.addBookController id time_1 (Some payload) []).2.

(** The collection after two accepted creates. *)
Definition after_posts (payload1 payload2 : Payload.t) : list Book.t :=
  (Books.addBookController "id-2" time_2 (Some payload2)
     (after_post "id-1" payload1)).2.

(** Two stored titles, and a query with a name and a finished filter. *)
Definition shelf : list Book.t :=
  after_posts (titled "Bumi Manusia" false) (titled "Laskar Pelangi" true).

Definition manusia_unfinished : Query.t :=
  {| Query.name := Some (Js.Single "MANUSIA"); Query.reading := None;
     Query.finished := Some (Js.Single "0") |}.

End Samples.

(* ===================================================================== *)
(** * The collection as a whole                                           *)
(* ===================================================================== *)

Module Store.

(** The ids of the collection, in its order. *)
Definition ids (books : list Book.t) : list string := map Book.id books.

(** What an update is to leave alone in each record: its id and its
    insertedAt. *)
Definition stamps (books : list Book.t) : list (string * string) :=
  map (λ book, (Book.id book, Book.insertedAt book)) books.

(** The two facts a write establishes about the record it stores:
    [finished] is [pageCount === readPage], and [pageCount < readPage] does
    not hold. *)
Definition derived (book : Book.t) : Prop :=
  Book.finished book
  = Js.strict_eq (Book.pageCount book) (Book.readPage book)
  ∧ Js.lt (Book.pageCount book) (Book.readPage book) = false.

(** A POST whose id no stored record carries, as [nanoid] is to provide;
    the other requests bring no new id. *)
Definition fresh (request : Catalog.Request) (books : list Book.t) : Prop :=
  match request with
  | Catalog.Post id _ _ => Catalog.absent id books
  | _ => True
  end.

(** The size of the collection after a response, from its size before. *)
Definition size_after (response : Books.Response) (n : nat) : nat :=
  match response with
  | Books.Created _ => S n
  | Books.Deleted => Nat.pred n
  | _ => n
  end.

(** The stored reading flag is a boolean. *)
Definition boolean_reading (book : Book.t) : Prop :=
  ∃ b, Book.reading book = Js.VBool b.

(** The request is a write addressed to [id]. *)
Definition writes_to (request : Catalog.Request) (id : string) : Prop :=
  match request with
  | Catalog.Post id' _ _ | Catalog.Put id' _ _ | Catalog.Delete id' => id' = id
  | _ => False
  end.

(** The query of a GET /books without parameters. *)
Definition no_filter : Query.t :=
  {| Query.name := None; Query.reading := None; Query.finished := None |}.

(** [query] with its name filter replaced. *)
Definition with_name (name : string) (query : Query.t) : Query.t :=
  {| Query.name := Some (Js.Single name);
     Query.reading := Query.reading query;
     Query.finished := Query.finished query |}.

End Store.

(* ===================================================================== *)
(** * Facts about the JavaScript operators                                *)
(* ===================================================================== *)

Module JsFacts.

Lemma strict_eq_undefined (v : Js.value) :
  Js.strict_eq v Js.VUndefined = true ↔ v = Js.VUndefined.
Proof. destruct v; simpl; split; congruence. Qed.

Lemma strict_eq_defined (v : Js.value) :
  v ≠ Js.VUndefined → Js.strict_eq v Js.VUndefined = false.
Proof.
  intros Hv. destruct (Js.strict_eq v Js.VUndefined) eqn:E; [|done].
  by apply strict_eq_undefined in E.
Qed.

Lemma number_eq_sym (x y : Js.number) : Js.number_eq x y = Js.number_eq y x.
Proof.
  destruct x as [|a|p], y as [|b|q]; simpl; try done.
  - by destruct a, b.
  - destruct (Qeq_bool p q) eqn:E.
    + apply Qeq_bool_iff in E. symmetry. apply Qeq_bool_iff. by symmetry.
    + destruct (Qeq_bool q p) eqn:E'; [|done].
      apply Qeq_bool_iff in E'. symmetry in E'.
      apply Qeq_bool_iff in E'. congruence.
Qed.

Lemma strict_eq_sym (x y : Js.value) : Js.strict_eq x y = Js.strict_eq y x.
Proof.
  destruct x as [| |a|a|s], y as [| |b|b|t]; simpl; try done.
  - by destruct a, b.
  - apply number_eq_sym.
  - apply String.eqb_sym.
Qed.

(** [<] and [===] on two absent values. *)
Lemma lt_undefined : Js.lt Js.VUndefined Js.VUndefined = false.
Proof. reflexivity. Qed.

(** [x <= y] excludes [x > y]; the converse fails where a NaN is involved,
    as for two absent values. *)
Lemma le_not_gt (x y : Js.value) : Js.le x y = true → Js.gt x y = false.
Proof.
  unfold Js.le, Js.gt, Js.lt. by destruct (Js.IsLessThan y x) as [[|]|].
Qed.

Lemma le_undefined :
  Js.le Js.VUndefined Js.VUndefined = false
  ∧ Js.gt Js.VUndefined Js.VUndefined = false.
Proof. done. Qed.

Lemma prefix_spec (needle hay : string) :
  String.prefix needle hay = true ↔ ∃ post, hay = (needle +:+ post)%string.
Proof.
  revert hay. induction needle as [|c needle IH]; intros hay; simpl.
  - destruct hay; split; eauto.
  - destruct hay as [|d hay]; simpl.
    + split; [done | intros [post Hp]; discriminate].
    + destruct (Ascii.ascii_dec c d) as [->|Hne].
      * rewrite IH. split; intros [post Hp]; exists post.
        -- by rewrite Hp.
        -- by injection Hp.
      * split; [done | intros [post Hp]; injection Hp; congruence].
Qed.

Lemma includes_unfold (hay needle : string) :
  Js.includes hay needle
  = String.prefix needle hay
    || match hay with
       | EmptyString => false
       | String _ r => Js.includes r needle
       end.
Proof. by destruct hay. Qed.

(** [includes] is substring containment. *)
Lemma includes_spec (hay needle : string) :
  Js.includes hay needle = true
  ↔ ∃ pre post, hay = (pre +:+ needle +:+ post)%string.
Proof.
  induction hay as [|c hay IH]; rewrite includes_unfold.
  - rewrite orb_false_r, prefix_spec. split.
    + intros [post Hp]. by exists EmptyString, post.
    + intros [pre [post Hp]]. destruct pre; [by exists post | discriminate].
  - rewrite orb_true_iff, prefix_spec, IH. split.
    + intros [[post Hp] | [pre [post Hp]]].
      * by exists EmptyString, post.
      * exists (String c pre), post. simpl. by rewrite Hp.
    + intros [pre [post Hp]]. destruct pre as [|d pre]; simpl in Hp.
      * left. by exists post.
      * right. exists pre, post. by injection Hp.
Qed.

(** [Number] on the strings a query may bring. *)
Example Number_of_literals :
  map Js.StringToNumber
    ["0"; "1"; " 12 "; "-7"; "1e3"; ".5"; "0x1F"; "0b101"; "Infinity"]%string
  = [Js.Finite 0; Js.Finite 1; Js.Finite 12; Js.Finite (-7); Js.Finite 1000;
     Js.Finite (1 # 2); Js.Finite 31; Js.Finite 5; Js.Infinity false].
Proof. reflexivity. Qed.

Example Number_of_blanks :
  map Js.StringToNumber [""; "   "; "00"; "0.0"; "-0"]%string
  = [Js.Finite 0; Js.Finite 0; Js.Finite 0; Js.Finite 0; Js.Finite 0].
Proof. reflexivity. Qed.

Example Number_of_others :
  map Js.StringToNumber
    ["true"; "false"; "yes"; "1_0"; "-0x1F"; "1e"; "."; "12px"]%string
  = [Js.NaN; Js.NaN; Js.NaN; Js.NaN; Js.NaN; Js.NaN; Js.NaN; Js.NaN].
Proof. reflexivity. Qed.

(** Rounding: 0.1 is the binary64 0x1.999999999999ap-4, 2^53 + 1 is a
    tie that goes to 2^53, what is below half the least subnormal is 0, and
    what is above the greatest binary64 by half a step is an infinity. *)
Example Number_rounds :
  map Js.StringToNumber
    ["0.1"; "9007199254740993"; "1e-400"; "5e-324"; "1.7976931348623159e308"]
    %string
  = [Js.Finite (3602879701896397 # 36028797018963968);
     Js.Finite 9007199254740992; Js.Finite 0;
     Js.Finite (1 # 2 ^ 1074); Js.Infinity false].
Proof. reflexivity. Qed.

Example lt_on_values :
  Js.lt (Js.VStr "10") (Js.VStr "9") = true
  ∧ Js.lt (Js.VStr "10") (Js.VNum (Js.Finite 9)) = false
  ∧ Js.lt Js.VNull (Js.VNum (Js.Finite 1)) = true
  ∧ Js.lt (Js.VNum (Js.Finite 1)) Js.VUndefined = false
  ∧ Js.lt (Js.VBool false) (Js.VBool true) = true.
Proof. by repeat split. Qed.

Example toLowerCase_title :
  Js.toLowerCase "Bumi MANUSIA (1980)" = "bumi manusia (1980)"%string.
Proof. reflexivity. Qed.

Section Arrays.
Context {A : Type}.
Implicit Types (p : A → bool) (a : list A).

Lemma findIndex_None p a :
  Js.findIndex p a = None ↔ Forall (λ x, p x = false) a.
Proof.
  induction a as [|x a IH]; simpl.
  - split; [constructor | done].
  - destruct (p x) eqn:Hx.
    + split; [done | intros H; apply Forall_cons in H as [H _]; congruence].
    + rewrite fmap_None, IH, Forall_cons. split; [by split | by intros [_ ?]].
Qed.

(** The index found is that of the first element that satisfies [p]. *)
Lemma findIndex_Some p a i :
  Js.findIndex p a = Some i
  ↔ ∃ pre x post, a = pre ++ x :: post ∧ length pre = i
      ∧ p x = true ∧ Forall (λ y, p y = false) pre.
Proof.
  revert i. induction a as [|x a IH]; intros i; simpl.
  - split; [done | intros (pre & y & post & Ha & _)].
    by destruct pre.
  - destruct (p x) eqn:Hx.
    + split.
      * intros [= <-]. by exists [], x, a.
      * intros (pre & y & post & Ha & <- & Hy & Hpre).
        destruct pre as [|z pre]; [done|].
        injection Ha as -> ->. inversion Hpre; congruence.
    + rewrite fmap_Some. split.
      * intros (j & Hj & ->). apply IH in Hj
          as (pre & y & post & -> & <- & Hy & Hpre).
        exists (x :: pre), y, post. by repeat split; [|constructor].
      * intros (pre & y & post & Ha & <- & Hy & Hpre).
        destruct pre as [|z pre]; simpl in Ha.
        { injection Ha as -> ->. congruence. }
        injection Ha as -> ->. exists (length pre). split; [|done].
        apply IH. exists pre, y, post. inversion Hpre; by subst.
Qed.

(** A callback that never throws makes [filter_throwing] the ordinary
    filter. *)
Lemma filter_throwing_total (f : A → option bool) p a :
  Forall (λ x, f x = Some (p x)) a →
  Js.filter_throwing f a = Some (List.filter p a).
Proof.
  induction 1 as [|x a Hx _ IH]; simpl; [done|].
  rewrite Hx, IH. simpl. by destruct (p x).
Qed.

(** It throws exactly when the callback throws on some element. *)
Lemma filter_throwing_None (f : A → option bool) a :
  Js.filter_throwing f a = None ↔ Exists (λ x, f x = None) a.
Proof.
  induction a as [|x a IH]; simpl.
  - split; [done | by inversion 1].
  - rewrite Exists_cons. destruct (f x) as [keep|]; simpl.
    + rewrite <- IH. destruct (Js.filter_throwing f a); simpl.
      * split; [done | by intros [|]].
      * split; [by right | done].
    + split; [by left | done].
Qed.

Lemma filter_filter p q a :
  List.filter q (List.filter p a) = List.filter (λ x, p x && q x) a.
Proof.
  induction a as [|x a IH]; simpl; [done|].
  destruct (p x); simpl; [destruct (q x)|]; by rewrite ?IH.
Qed.

Lemma filter_true a : List.filter (λ _, true) a = a.
Proof. induction a; simpl; congruence. Qed.
End Arrays.

End JsFacts.

(* ===================================================================== *)
(** * Properties of the catalog                                           *)
(* ===================================================================== *)

Module CatalogFacts.
Import Books Catalog.

(** Runs the two validations of a write, from what is known about the
    name and about [readPage > pageCount]. *)
Ltac validate Hname Hpages :=
  first [ rewrite (JsFacts.strict_eq_defined _ Hname)
        | rewrite (proj2 (JsFacts.strict_eq_undefined _) Hname) ];
  try (unfold Js.gt in Hpages; rewrite Hpages).

Lemma has_id_true id book : has_id id book = true ↔ Book.id book = id.
Proof. apply String.eqb_eq. Qed.

Lemma has_id_false id book : has_id id book = false ↔ Book.id book ≠ id.
Proof. apply String.eqb_neq. Qed.

Lemma findIndex_absent id books :
  Js.findIndex (has_id id) books = None ↔ absent id books.
Proof.
  rewrite JsFacts.findIndex_None. unfold absent.
  apply Forall_iff. intros book. apply has_id_false.
Qed.

Lemma filter_has_id_absent id books :
  absent id books → List.filter (has_id id) books = [].
Proof.
  induction 1 as [|book books Hb _ IH]; simpl; [done|].
  apply has_id_false in Hb. by rewrite Hb.
Qed.

(** After [books.push(newBook)] the check [isSuccess] cannot fail. *)
Lemma pushed_is_found id (book : Book.t) books :
  Book.id book = id →
  (0 <? length (List.filter (has_id id) (books ++ [book])))%nat = true.
Proof.
  intros Hid. apply Nat.ltb_lt. rewrite List.filter_app, length_app. simpl.
  apply has_id_true in Hid. rewrite Hid. simpl. lia.
Qed.

Lemma add_valid id now payload books :
  valid payload →
  addBookController id now (Some payload) books
  = (Created id, books ++ [new_book id now payload]).
Proof.
  intros [Hname Hpages]. unfold addBookController.
  validate Hname Hpages.
  fold (new_book id now payload). by rewrite pushed_is_found.
Qed.

Lemma present_not_absent id books : present id books → ¬ absent id books.
Proof.
  unfold present, absent. intros Hp Ha.
  apply Exists_exists in Hp as (book & Hin & Hid).
  rewrite Forall_forall in Ha. by apply (Ha book).
Qed.

(** A collection that has [id] splits at the first record that carries
    it, which is where [findIndex] stops. *)
Lemma present_split id books :
  present id books →
  ∃ pre r post,
    books = pre ++ r :: post ∧ Book.id r = id ∧ absent id pre.
Proof.
  induction 1 as [book books Hid | book books _ IH].
  - exists [], book, books. repeat split; [done | constructor].
  - destruct IH as (pre & r & post & -> & Hr & Hpre).
    destruct (decide (Book.id book = id)) as [Hid | Hne].
    + exists [], book, (pre ++ r :: post).
      repeat split; [done | constructor].
    + exists (book :: pre), r, post. repeat split; [done|].
      by constructor.
Qed.

(** Where ids are unique, every record is the first that carries its id. *)
Lemma unique_ids_first pre r post :
  NoDup (map Book.id (pre ++ r :: post)) → absent (Book.id r) pre.
Proof.
  rewrite map_app. simpl. intros Hnodup.
  apply NoDup_app in Hnodup as (_ & Hdisjoint & _).
  apply Forall_forall. intros book Hin Heq.
  apply (Hdisjoint (Book.id book)).
  - apply list_elem_of_fmap. by exists book.
  - rewrite Heq. apply list_elem_of_here.
Qed.

Lemma findIndex_first id pre r post :
  Book.id r = id → absent id pre →
  Js.findIndex (has_id id) (pre ++ r :: post) = Some (length pre).
Proof.
  intros Hr Hpre. apply JsFacts.findIndex_Some. exists pre, r, post.
  repeat split; [by apply has_id_true|].
  eapply Forall_impl; [exact Hpre|]. intros book. apply has_id_false.
Qed.

Lemma filter_has_id_first id pre r post :
  Book.id r = id → absent id pre →
  ∃ rest, List.filter (has_id id) (pre ++ r :: post) = r :: rest.
Proof.
  intros Hr Hpre. rewrite List.filter_app, (filter_has_id_absent _ _ Hpre).
  simpl. apply has_id_true in Hr. rewrite Hr. eauto.
Qed.

Lemma alter_first {A} (f : A → A) (pre : list A) x post :
  alter f (length pre) (pre ++ x :: post) = pre ++ f x :: post.
Proof.
  replace (length pre) with (length pre + 0)%nat by lia.
  by rewrite alter_app_r.
Qed.

Lemma edit_valid id now payload pre r post :
  Book.id r = id → absent id pre → valid payload →
  editBookByIdController id now (Some payload) (pre ++ r :: post)
  = (Updated,
     pre ++ overwrite payload
              (Js.strict_eq (Payload.pageCount payload)
                            (Payload.readPage payload)) now r :: post).
Proof.
  intros Hr Hpre [Hname Hpages]. unfold editBookByIdController.
  rewrite (findIndex_first _ _ _ _ Hr Hpre).
  validate Hname Hpages. by rewrite alter_first.
Qed.

Lemma edit_absent id now payload books :
  absent id books →
  editBookByIdController id now (Some payload) books = (NotFound, books).
Proof.
  intros Ha. unfold editBookByIdController.
  by rewrite (proj2 (findIndex_absent id books) Ha).
Qed.

(** ** Creating a record *)

(** C1. A create input whose name is defined and whose readPage does not
    exceed pageCount is accepted: the response is the 201 one, exactly one
    record is appended, its finished field is (readPage === pageCount),
    its insertedAt is its updatedAt, and the id returned is the id of that
    record; the 500 fall-through is not taken. *)
Theorem create_succeeds id now payload books :
  Payload.name payload ≠ Js.VUndefined →
  Js.gt (Payload.readPage payload) (Payload.pageCount payload) = false →
  ∃ book,
    addBookController id now (Some payload) books = (Created id, books ++ [book])
    ∧ code (addBookController id now (Some payload) books).1 = 201
    ∧ Book.id book = id
    ∧ Book.finished book
      = Js.strict_eq (Payload.readPage payload) (Payload.pageCount payload)
    ∧ Book.insertedAt book = Book.updatedAt book.
Proof.
  intros Hname Hpages. exists (new_book id now payload).
  rewrite add_valid by done. repeat split. apply JsFacts.strict_eq_sym.
Qed.

(** The same for an input with [readPage <= pageCount], the stronger
    reading of "does not exceed". *)
Corollary create_succeeds_le id now payload books :
  Payload.name payload ≠ Js.VUndefined →
  Js.le (Payload.readPage payload) (Payload.pageCount payload) = true →
  addBookController id now (Some payload) books
  = (Created id, books ++ [new_book id now payload]).
Proof.
  intros Hname Hle. apply add_valid. split; [done|].
  by apply JsFacts.le_not_gt.
Qed.

Lemma create_succeeds_witness :
  ∃ book,
    addBookController "Qbax5Oy7L8WKf74l" "2021-03-04T09:11:44.598Z"
      (Some (Payload.Make (Js.VStr "Buku A") (Js.VNum (Js.Finite 2010))
         (Js.VStr "John Doe") (Js.VStr "Lorem ipsum") (Js.VStr "Dicoding")
         (Js.VNum (Js.Finite 100)) (Js.VNum (Js.Finite 25)) (Js.VBool false)))
      []
    = (Created "Qbax5Oy7L8WKf74l", [] ++ [book])
    ∧ code (addBookController "Qbax5Oy7L8WKf74l" "2021-03-04T09:11:44.598Z"
        (Some (Payload.Make (Js.VStr "Buku A") (Js.VNum (Js.Finite 2010))
           (Js.VStr "John Doe") (Js.VStr "Lorem ipsum") (Js.VStr "Dicoding")
           (Js.VNum (Js.Finite 100)) (Js.VNum (Js.Finite 25)) (Js.VBool false)))
        []).1 = 201
    ∧ Book.id book = "Qbax5Oy7L8WKf74l"
    ∧ Book.finished book
      = Js.strict_eq (Js.VNum (Js.Finite 25)) (Js.VNum (Js.Finite 100))
    ∧ Book.insertedAt book = Book.updatedAt book.
Proof.
  apply (create_succeeds "Qbax5Oy7L8WKf74l" "2021-03-04T09:11:44.598Z"
    (Payload.Make (Js.VStr "Buku A") (Js.VNum (Js.Finite 2010))
       (Js.VStr "John Doe") (Js.VStr "Lorem ipsum") (Js.VStr "Dicoding")
       (Js.VNum (Js.Finite 100)) (Js.VNum (Js.Finite 25)) (Js.VBool false))
    []); [discriminate | reflexivity].
Defined.

(** C9. A create input with a defined name and neither pageCount nor
    readPage passes both checks ([undefined < undefined] is false) and is
    stored with finished = true ([undefined === undefined]). *)
Theorem create_without_pages_is_finished id now payload books :
  Payload.name payload ≠ Js.VUndefined →
  Payload.pageCount payload = Js.VUndefined →
  Payload.readPage payload = Js.VUndefined →
  ∃ book,
    addBookController id now (Some payload) books = (Created id, books ++ [book])
    ∧ Book.pageCount book = Js.VUndefined
    ∧ Book.readPage book = Js.VUndefined
    ∧ Book.finished book = true.
Proof.
  intros Hname Hpc Hrp. exists (new_book id now payload).
  rewrite add_valid.
  - unfold new_book; simpl. by rewrite Hpc, Hrp.
  - split; [done|]. by rewrite Hpc, Hrp.
Qed.

Lemma create_without_pages_is_finished_witness :
  ∃ book,
    addBookController "id-1" "2022-01-01T00:00:00.000Z"
      (Some (Payload.Make (Js.VStr "Buku A") Js.VUndefined Js.VUndefined
         Js.VUndefined Js.VUndefined Js.VUndefined Js.VUndefined Js.VUndefined))
      []
    = (Created "id-1", [] ++ [book])
    ∧ Book.pageCount book = Js.VUndefined
    ∧ Book.readPage book = Js.VUndefined
    ∧ Book.finished book = true.
Proof.
  apply (create_without_pages_is_finished "id-1" "2022-01-01T00:00:00.000Z"
    (Payload.Make (Js.VStr "Buku A") Js.VUndefined Js.VUndefined
       Js.VUndefined Js.VUndefined Js.VUndefined Js.VUndefined Js.VUndefined)
    []); [discriminate | reflexivity | reflexivity].
Defined.

(** ** Rejected writes *)

(** C2, as stated, fails where both defects meet: a create input without
    a name and with readPage > pageCount is answered with MissingName, not
    with PageCountExceeded. *)
Lemma missing_name_is_reported_first :
  let payload :=
    Payload.Make Js.VUndefined Js.VUndefined Js.VUndefined Js.VUndefined
      Js.VUndefined (Js.VNum (Js.Finite 1)) (Js.VNum (Js.Finite 2))
      Js.VUndefined in
  Js.gt (Payload.readPage payload) (Payload.pageCount payload) = true
  ∧ (addBookController "id-1" "2022-01-01T00:00:00.000Z" (Some payload) []).1
    = MissingName
  ∧ (addBookController "id-1" "2022-01-01T00:00:00.000Z" (Some payload) []).1
    ≠ PageCountExceeded.
Proof. by repeat split. Qed.

(** C2, amended. Create without a name is answered with MissingName;
    create, and update of an id that exists, with a name and with
    readPage > pageCount are answered with PageCountExceeded; each of
    these rejections leaves the collection as it was. *)
Theorem rejected_writes_change_nothing id now payload books :
  (Payload.name payload = Js.VUndefined →
     addBookController id now (Some payload) books = (MissingName, books))
  ∧ (Payload.name payload ≠ Js.VUndefined →
     Js.gt (Payload.readPage payload) (Payload.pageCount payload) = true →
     addBookController id now (Some payload) books = (PageCountExceeded, books))
  ∧ (present id books →
     Payload.name payload ≠ Js.VUndefined →
     Js.gt (Payload.readPage payload) (Payload.pageCount payload) = true →
     editBookByIdController id now (Some payload) books
     = (PageCountExceeded, books)).
Proof.
  repeat split.
  - intros Hname. unfold addBookController. by validate Hname Hname.
  - intros Hname Hpages. unfold addBookController.
    by validate Hname Hpages.
  - intros (pre & r & post & -> & Hr & Hpre)%present_split Hname Hpages.
    unfold editBookByIdController.
    rewrite (findIndex_first _ _ _ _ Hr Hpre).
    by validate Hname Hpages.
Qed.

Lemma rejected_writes_change_nothing_witness :
  addBookController "id-2" Samples.time_2
    (Some (Samples.only Js.VUndefined (Samples.number 100) (Samples.number 25)
       Js.VUndefined))
    (Samples.after_post "id-1" (Samples.buku_a 100 25))
  = (MissingName, Samples.after_post "id-1" (Samples.buku_a 100 25))
  ∧ addBookController "id-2" Samples.time_2 (Some (Samples.buku_a 100 101))
      (Samples.after_post "id-1" (Samples.buku_a 100 25))
    = (PageCountExceeded, Samples.after_post "id-1" (Samples.buku_a 100 25))
  ∧ editBookByIdController "id-1" Samples.time_2 (Some (Samples.buku_a 100 101))
      (Samples.after_post "id-1" (Samples.buku_a 100 25))
    = (PageCountExceeded, Samples.after_post "id-1" (Samples.buku_a 100 25)).
Proof.
  split; [|split].
  - apply (rejected_writes_change_nothing "id-2" Samples.time_2
      (Samples.only Js.VUndefined (Samples.number 100) (Samples.number 25)
         Js.VUndefined)
      (Samples.after_post "id-1" (Samples.buku_a 100 25))).
    reflexivity.
  - apply (rejected_writes_change_nothing "id-2" Samples.time_2
      (Samples.buku_a 100 101)
      (Samples.after_post "id-1" (Samples.buku_a 100 25)));
      [discriminate | reflexivity].
  - apply (rejected_writes_change_nothing "id-1" Samples.time_2
      (Samples.buku_a 100 101)
      (Samples.after_post "id-1" (Samples.buku_a 100 25)));
      [apply Exists_cons_hd; reflexivity | discriminate | reflexivity].
Defined.

(** ** Updating a record *)

(** C5, as stated, fails: the payload is taken apart before the id is
    looked for, so an update without a payload is answered with 500, not
    with NotFound, also for an id that no record carries. *)
Lemma update_without_payload_is_not_looked_up :
  absent "id-9" Samples.shelf
  ∧ editBookByIdController "id-9" Samples.time_2 None Samples.shelf
    = (Unexpected, Samples.shelf)
  ∧ code (editBookByIdController "id-9" Samples.time_2 None
            Samples.shelf).1 = 500
  ∧ (editBookByIdController "id-9" Samples.time_2 None Samples.shelf).1
    ≠ NotFound.
Proof.
  split; [repeat constructor; discriminate|]. by repeat split.
Qed.

(** C5, amended. For an id that no record carries, an update that has a
    payload answers NotFound and changes nothing, whatever the fields of
    the payload (also without a name or with readPage > pageCount); an
    update without a payload answers 500 and changes nothing, whether the
    id exists or not; a validation error is only ever the answer for an
    id that exists. *)
Theorem update_looks_up_before_validating id now
    (payload : option Payload.t) books :
  (∀ fields, payload = Some fields → absent id books →
     editBookByIdController id now payload books = (NotFound, books))
  ∧ (payload = None →
     editBookByIdController id now payload books = (Unexpected, books))
  ∧ (validation_error (editBookByIdController id now payload books).1 →
     present id books).
Proof.
  split; [|split].
  - intros fields -> Ha. by apply edit_absent.
  - by intros ->.
  - intros Herr. destruct payload as [fields|]; [|by destruct Herr].
    unfold editBookByIdController in Herr.
    destruct (Js.findIndex (has_id id) books) as [i|] eqn:Hfind.
    + apply JsFacts.findIndex_Some in Hfind
        as (pre & r & post & -> & _ & Hr & _).
      apply Exists_app. right. apply Exists_cons_hd. by apply has_id_true.
    + by destruct Herr.
Qed.

Lemma update_looks_up_before_validating_witness :
  editBookByIdController "id-9" Samples.time_2
    (Some (Samples.only Js.VUndefined (Samples.number 1) (Samples.number 2)
       Js.VUndefined))
    (Samples.after_post "id-1" (Samples.buku_a 100 25))
  = (NotFound, Samples.after_post "id-1" (Samples.buku_a 100 25))
  ∧ editBookByIdController "id-1" Samples.time_2 None
      (Samples.after_post "id-1" (Samples.buku_a 100 25))
    = (Unexpected, Samples.after_post "id-1" (Samples.buku_a 100 25))
  ∧ present "id-1" (Samples.after_post "id-1" (Samples.buku_a 100 25)).
Proof.
  split; [|split].
  - eapply (update_looks_up_before_validating "id-9" Samples.time_2
      (Some (Samples.only Js.VUndefined (Samples.number 1)
         (Samples.number 2) Js.VUndefined))
      (Samples.after_post "id-1" (Samples.buku_a 100 25)));
      [reflexivity|].
    repeat constructor. discriminate.
  - apply (update_looks_up_before_validating "id-1" Samples.time_2 None
      (Samples.after_post "id-1" (Samples.buku_a 100 25))).
    reflexivity.
  - apply (update_looks_up_before_validating "id-1" Samples.time_2
      (Some (Samples.buku_a 100 101))
      (Samples.after_post "id-1" (Samples.buku_a 100 25))).
    right. reflexivity.
Defined.

(** C6. An accepted update of the record that carries the id keeps its id
    and insertedAt, gives every other field the value the payload has for
    it ([undefined] where the payload has none), recomputes finished as
    (readPage === pageCount), sets updatedAt to the time of the request,
    and leaves every other record of the collection as it was.  The
    record is the first that carries the id, as every record is where ids
    are unique ([unique_ids_first]). *)
Theorem update_overwrites_all_but_id_and_insertedAt
    id now payload pre r post :
  Book.id r = id → absent id pre →
  Payload.name payload ≠ Js.VUndefined →
  Js.gt (Payload.readPage payload) (Payload.pageCount payload) = false →
  ∃ r',
    editBookByIdController id now (Some payload) (pre ++ r :: post)
    = (Updated, pre ++ r' :: post)
    ∧ Book.id r' = Book.id r
    ∧ Book.insertedAt r' = Book.insertedAt r
    ∧ Book.name r' = Payload.name payload
    ∧ Book.year r' = Payload.year payload
    ∧ Book.author r' = Payload.author payload
    ∧ Book.summary r' = Payload.summary payload
    ∧ Book.publisher r' = Payload.publisher payload
    ∧ Book.pageCount r' = Payload.pageCount payload
    ∧ Book.readPage r' = Payload.readPage payload
    ∧ Book.reading r' = Payload.reading payload
    ∧ Book.finished r'
      = Js.strict_eq (Payload.readPage payload) (Payload.pageCount payload)
    ∧ Book.updatedAt r' = now.
Proof.
  intros Hr Hpre Hname Hpages. eexists. split.
  - by apply edit_valid.
  - simpl. repeat split. apply JsFacts.strict_eq_sym.
Qed.

Lemma update_overwrites_all_but_id_and_insertedAt_witness :
  ∃ r',
    editBookByIdController "id-1" Samples.time_2
      (Some (Samples.only (Js.VStr "Buku B") (Samples.number 80)
         (Samples.number 80) Js.VUndefined))
      ([] ++ new_book "id-1" Samples.time_1 (Samples.buku_a 100 25)
          :: [new_book "id-2" Samples.time_1 (Samples.buku_a 10 0)])
    = (Updated,
       [] ++ r' :: [new_book "id-2" Samples.time_1 (Samples.buku_a 10 0)])
    ∧ Book.id r' = "id-1"
    ∧ Book.insertedAt r' = Samples.time_1
    ∧ Book.name r' = Js.VStr "Buku B"
    ∧ Book.year r' = Js.VUndefined
    ∧ Book.author r' = Js.VUndefined
    ∧ Book.summary r' = Js.VUndefined
    ∧ Book.publisher r' = Js.VUndefined
    ∧ Book.pageCount r' = Samples.number 80
    ∧ Book.readPage r' = Samples.number 80
    ∧ Book.reading r' = Js.VUndefined
    ∧ Book.finished r' = true
    ∧ Book.updatedAt r' = Samples.time_2.
Proof.
  apply (update_overwrites_all_but_id_and_insertedAt "id-1" Samples.time_2
    (Samples.only (Js.VStr "Buku B") (Samples.number 80)
       (Samples.number 80) Js.VUndefined)
    [] (new_book "id-1" Samples.time_1 (Samples.buku_a 100 25))
    [new_book "id-2" Samples.time_1 (Samples.buku_a 10 0)]);
    [reflexivity | constructor | discriminate | reflexivity].
Defined.

(** C7. Create a valid input, read the record back, update it with the
    same field values and read it back again: the two records read agree
    in every field but updatedAt.  The id is the one [nanoid] hands out,
    which no stored record carries. *)
Theorem create_update_round_trip id created updated payload books :
  absent id books →
  Payload.name payload ≠ Js.VUndefined →
  Js.gt (Payload.readPage payload) (Payload.pageCount payload) = false →
  ∃ books1 books2 r1 r2,
    addBookController id created (Some payload) books = (Created id, books1)
    ∧ getBookByIdController id books1 = Found r1
    ∧ editBookByIdController id updated (Some payload) books1 = (Updated, books2)
    ∧ getBookByIdController id books2 = Found r2
    ∧ same_except_updatedAt r1 r2.
Proof.
  intros Hfresh Hname Hpages.
  pose (r1 := new_book id created payload).
  pose (r2 := overwrite payload
    (Js.strict_eq (Payload.pageCount payload) (Payload.readPage payload))
    updated r1).
  exists (books ++ [r1]), (books ++ [r2]), r1, r2.
  assert (getBookByIdController id (books ++ [r1]) = Found r1) as Hget1.
  { unfold getBookByIdController.
    by destruct (filter_has_id_first id books r1 [] eq_refl Hfresh) as [? ->]. }
  assert (getBookByIdController id (books ++ [r2]) = Found r2) as Hget2.
  { unfold getBookByIdController.
    by destruct (filter_has_id_first id books r2 [] eq_refl Hfresh) as [? ->]. }
  repeat split; try done.
  - by apply add_valid.
  - by apply edit_valid.
Qed.

Lemma create_update_round_trip_witness :
  ∃ books1 books2 r1 r2,
    addBookController "id-2" Samples.time_1 (Some (Samples.buku_a 100 25))
      (Samples.after_post "id-1" (Samples.buku_a 10 10))
    = (Created "id-2", books1)
    ∧ getBookByIdController "id-2" books1 = Found r1
    ∧ editBookByIdController "id-2" Samples.time_2 (Some (Samples.buku_a 100 25))
        books1 = (Updated, books2)
    ∧ getBookByIdController "id-2" books2 = Found r2
    ∧ same_except_updatedAt r1 r2.
Proof.
  apply (create_update_round_trip "id-2" Samples.time_1 Samples.time_2
    (Samples.buku_a 100 25)
    (Samples.after_post "id-1" (Samples.buku_a 10 10)));
    [repeat constructor; discriminate | discriminate | reflexivity].
Defined.

(** ** Deleting a record *)

Lemma delete_first id pre r post :
  Book.id r = id → absent id pre →
  deleteBookByIdController id (pre ++ r :: post) = (Deleted, pre ++ post).
Proof.
  intros Hr Hpre. unfold deleteBookByIdController.
  rewrite (findIndex_first _ _ _ _ Hr Hpre). by rewrite delete_middle.
Qed.

(** C8. For an id that no record carries, delete answers NotFound and the
    collection, its size included, is as before; for an id that is there,
    delete takes out the one record that carries it and keeps all the
    others, in their order. *)
Theorem delete_removes_exactly_one id books :
  (absent id books →
     deleteBookByIdController id books = (NotFound, books)
     ∧ length (deleteBookByIdController id books).2 = length books)
  ∧ (present id books →
     ∃ pre r post,
       books = pre ++ r :: post ∧ Book.id r = id ∧ absent id pre
       ∧ deleteBookByIdController id books = (Deleted, pre ++ post)
       ∧ S (length (deleteBookByIdController id books).2) = length books).
Proof.
  split.
  - intros Ha. unfold deleteBookByIdController.
    by rewrite (proj2 (findIndex_absent id books) Ha).
  - intros (pre & r & post & -> & Hr & Hpre)%present_split.
    exists pre, r, post. rewrite (delete_first _ _ _ _ Hr Hpre).
    repeat split; [done..|]. simpl. rewrite !length_app. simpl. lia.
Qed.

Lemma delete_removes_exactly_one_witness :
  (deleteBookByIdController "id-9"
     (Samples.after_post "id-1" (Samples.buku_a 100 25))
   = (NotFound, Samples.after_post "id-1" (Samples.buku_a 100 25))
   ∧ length (deleteBookByIdController "id-9"
       (Samples.after_post "id-1" (Samples.buku_a 100 25))).2
     = length (Samples.after_post "id-1" (Samples.buku_a 100 25)))
  ∧ ∃ pre r post,
      Samples.after_post "id-1" (Samples.buku_a 100 25) = pre ++ r :: post
      ∧ Book.id r = "id-1" ∧ absent "id-1" pre
      ∧ deleteBookByIdController "id-1"
          (Samples.after_post "id-1" (Samples.buku_a 100 25))
        = (Deleted, pre ++ post)
      ∧ S (length (deleteBookByIdController "id-1"
          (Samples.after_post "id-1" (Samples.buku_a 100 25))).2)
        = length (Samples.after_post "id-1" (Samples.buku_a 100 25)).
Proof.
  split.
  - apply (delete_removes_exactly_one "id-9"
      (Samples.after_post "id-1" (Samples.buku_a 100 25))).
    repeat constructor. discriminate.
  - apply (delete_removes_exactly_one "id-1"
      (Samples.after_post "id-1" (Samples.buku_a 100 25))).
    apply Exists_cons_hd. reflexivity.
Defined.

(** ** Listing *)

Lemma name_filter_total (callback : Book.t → option bool) name books :
  (∀ book, callback book
           = lowered ← name_toLowerCase book;
             needle ← Js.param_toLowerCase (Js.Single name);
             Some (Js.includes lowered needle)) →
  Forall named_by_string books →
  Js.filter_throwing callback books
  = Some (List.filter (name_contains name) books).
Proof.
  intros Hcallback Hnames. apply JsFacts.filter_throwing_total.
  eapply Forall_impl; [exact Hnames|].
  intros book [s Hs]. rewrite Hcallback.
  unfold name_toLowerCase, name_contains. by rewrite Hs.
Qed.

(** Where the name filter can be applied, the three filters in a row
    select what [satisfies] selects. *)
Lemma list_total query books :
  name_filter_applies query books →
  getAllBooksController query books
  = Listed (map summary_of (List.filter (satisfies query) books)).
Proof.
  intros Hok.
  unfold getAllBooksController, satisfies, name_filter_applies in *.
  destruct (Query.name query) as [[name|values]|];
    [simpl; erewrite (name_filter_total _ name books)
              by first [exact Hok | intros; reflexivity]
    | subst books |];
    destruct (Query.reading query) as [reading|],
             (Query.finished query) as [finished|]; simpl;
    rewrite ?JsFacts.filter_filter; do 2 f_equal;
    try (apply List.filter_ext; intros book; simpl;
         by rewrite ?andb_true_r, ?andb_assoc).
  symmetry. apply JsFacts.filter_true.
Qed.

(** The catch clause of list is reached exactly when a name filter that
    is a string meets a stored name that is not one, or a name filter that
    is an array meets any record at all. *)
Lemma list_faults_iff query books :
  getAllBooksController query books = Unexpected
  ↔ match Query.name query with
    | None => False
    | Some (Js.Single _) =>
        Exists (λ book, name_toLowerCase book = None) books
    | Some (Js.Repeated _) => books ≠ []
    end.
Proof.
  unfold getAllBooksController.
  destruct (Query.name query) as [[name|values]|]; simpl.
  - set (callback := λ book, _).
    assert (Js.filter_throwing callback books = None
            ↔ Exists (λ book, name_toLowerCase book = None) books) as <-.
    { rewrite JsFacts.filter_throwing_None, !Exists_exists.
      split; intros (book & Hin & Hb); exists book; (split; [done|]);
        subst callback; simpl in *; by destruct (name_toLowerCase book). }
    destruct (Js.filter_throwing callback books);
      by destruct (Query.reading query), (Query.finished query).
  - destruct books as [|book books]; simpl.
    + by destruct (Query.reading query), (Query.finished query).
    + destruct (name_toLowerCase book); simpl;
        by destruct (Query.reading query), (Query.finished query).
  - by destruct (Query.reading query), (Query.finished query).
Qed.

(** C3, as stated, fails: create accepts a name that is [null], and with
    that record stored a list request with a name filter ends in the catch
    clause, the 500 response. *)
Lemma list_fails_on_null_name :
  let payload :=
    Samples.only Js.VNull Js.VUndefined Js.VUndefined Js.VUndefined in
  addBookController "id-1" Samples.time_1 (Some payload) []
  = (Created "id-1", Samples.after_post "id-1" payload)
  ∧ getAllBooksController (query_name "buku")
      (Samples.after_post "id-1" payload) = Unexpected
  ∧ code (getAllBooksController (query_name "buku")
      (Samples.after_post "id-1" payload)) = 500.
Proof. by repeat split. Qed.

(** C3, amended. When the name filter is absent, or is a string while
    every stored name is a string (or nothing is stored), list answers 200
    with the projection to id, name and publisher of exactly the records
    that satisfy all the filters given, in the order of the collection,
    and with the empty sequence when none does.  The name filter is
    containment of the lower-cased filter in the lower-cased stored
    name. *)
Theorem list_returns_matching_summaries query books :
  name_filter_applies query books →
  getAllBooksController query books
  = Listed
      (map (λ book, {| Summary.id := Book.id book;
                       Summary.name := Book.name book;
                       Summary.publisher := Book.publisher book |})
         (List.filter (satisfies query) books))
  ∧ code (getAllBooksController query books) = 200
  ∧ (Forall (λ book, satisfies query book = false) books →
     getAllBooksController query books = Listed [])
  ∧ (∀ needle book s, Book.name book = Js.VStr s →
     name_contains needle book = true
     ↔ ∃ pre post,
         Js.toLowerCase s
         = (pre +:+ Js.toLowerCase needle +:+ post)%string).
Proof.
  intros Hok. rewrite (list_total _ _ Hok).
  split; [done|]. split; [done|]. split.
  - intros Hnone.
    assert (List.filter (satisfies query) books = []) as ->; [|done].
    clear Hok. induction Hnone as [|book rest Hb _ IH]; simpl; [done|].
    by rewrite Hb.
  - intros needle book s Hs. unfold name_contains. rewrite Hs.
    apply JsFacts.includes_spec.
Qed.

Lemma list_returns_matching_summaries_witness :
  getAllBooksController Samples.manusia_unfinished Samples.shelf
  = Listed
      (map (λ book, {| Summary.id := Book.id book;
                       Summary.name := Book.name book;
                       Summary.publisher := Book.publisher book |})
         (List.filter (satisfies Samples.manusia_unfinished) Samples.shelf))
  ∧ code (getAllBooksController Samples.manusia_unfinished Samples.shelf)
    = 200
  ∧ (Forall (λ book, satisfies Samples.manusia_unfinished book = false)
       Samples.shelf →
     getAllBooksController Samples.manusia_unfinished Samples.shelf
     = Listed [])
  ∧ (∀ needle book s, Book.name book = Js.VStr s →
     name_contains needle book = true
     ↔ ∃ pre post,
         Js.toLowerCase s
         = (pre +:+ Js.toLowerCase needle +:+ post)%string).
Proof.
  apply (list_returns_matching_summaries Samples.manusia_unfinished
    Samples.shelf).
  repeat constructor; eexists; reflexivity.
Defined.

(** What the example query selects from the example shelf. *)
Example list_manusia :
  getAllBooksController Samples.manusia_unfinished Samples.shelf
  = Listed [ {| Summary.id := "id-1"; Summary.name := Js.VStr "Bumi Manusia";
                Summary.publisher := Js.VUndefined |} ].
Proof. reflexivity. Qed.

(** C4, as stated, fails: "true" is not "0", yet [Number("true")] is NaN,
    which is falsy, so reading=true selects the records that are not being
    read and leaves out the one whose reading field is true. *)
Lemma reading_true_is_coerced_to_false :
  let books := Samples.after_post "id-1" (Samples.titled "Buku A" true) in
  "true"%string ≠ "0"%string
  ∧ Forall (λ book, Book.reading book = Js.VBool true) books
  ∧ books ≠ []
  ∧ getAllBooksController (query_reading "true") books = Listed [].
Proof.
  split; [discriminate|]. split; [by repeat constructor|]. by split.
Qed.

(** C4, amended. A reading or finished filter [s] is coerced by
    [!!Number(s)]: it stands for true exactly when [s] reads as a numeric
    literal whose value is neither NaN nor zero ("1", but also "2" or
    "0x1F"), and for false otherwise ("0", the empty string, "00", and
    also "true" and "false"); list selects the records whose field is
    strictly equal to that boolean. *)
Theorem boolean_filters_go_through_Number s books :
  getAllBooksController (query_reading s) books
  = Listed (map summary_of (List.filter (λ book,
      Js.strict_eq (Book.reading book) (Js.VBool (Js.truthy_number s)))
      books))
  ∧ getAllBooksController (query_finished s) books
    = Listed (map summary_of (List.filter (λ book,
        Bool.eqb (Book.finished book) (Js.truthy_number s)) books))
  ∧ (Js.truthy_number s = true
     ↔ Js.StringToNumber s ≠ Js.NaN
       ∧ ∀ q, Js.StringToNumber s = Js.Finite q → ¬ (q == 0)%Q)
  ∧ Js.truthy_number "1" = true
  ∧ Js.truthy_number "2" = true
  ∧ Js.truthy_number "0x1F" = true
  ∧ Js.truthy_number "0" = false
  ∧ Js.truthy_number "" = false
  ∧ Js.truthy_number "00" = false
  ∧ Js.truthy_number "true" = false
  ∧ Js.truthy_number "false" = false.
Proof.
  split; [|split; [|split; [|by repeat split]]].
  - rewrite list_total by done. do 2 f_equal.
    apply List.filter_ext. intros book. unfold satisfies. simpl.
    by rewrite andb_true_r.
  - by rewrite list_total by done.
  - unfold Js.truthy_number, Js.number_to_boolean.
    destruct (Js.StringToNumber s) as [|neg|q]; simpl.
    + split; [done | by intros [? _]].
    + split; [|done]. intros _. by split.
    + rewrite negb_true_iff. split.
      * intros Hq. split; [done|]. intros q' [= <-] Hz.
        apply Qeq_bool_iff in Hz. congruence.
      * intros [_ Hq]. destruct (Qeq_bool q 0) eqn:E; [|done].
        apply Qeq_bool_iff in E. by destruct (Hq q eq_refl).
Qed.

(** ** The invariant on stored names *)

Lemma add_keeps_names_defined id now (payload : option Payload.t) books :
  Forall name_defined books →
  Forall name_defined (addBookController id now payload books).2.
Proof.
  intros Hinv. destruct payload as [payload|]; [|done].
  unfold addBookController.
  destruct (Js.strict_eq (Payload.name payload) Js.VUndefined) eqn:Hname;
    [done|].
  destruct (Js.lt (Payload.pageCount payload) (Payload.readPage payload));
    [done|].
  assert (Forall name_defined (books ++ [new_book id now payload])) as Hnew.
  { apply Forall_app. split; [done|]. constructor; [|constructor].
    unfold name_defined. simpl. intros Hu.
    apply JsFacts.strict_eq_undefined in Hu. congruence. }
  fold (new_book id now payload). by destruct (_ <? _)%nat.
Qed.

Lemma edit_keeps_names_defined id now (payload : option Payload.t) books :
  Forall name_defined books →
  Forall name_defined (editBookByIdController id now payload books).2.
Proof.
  intros Hinv. destruct payload as [payload|]; [|done].
  unfold editBookByIdController.
  destruct (Js.findIndex (has_id id) books) as [index|]; [|done].
  destruct (Js.strict_eq (Payload.name payload) Js.VUndefined) eqn:Hname;
    [done|].
  destruct (Js.lt (Payload.pageCount payload) (Payload.readPage payload));
    [done|].
  simpl. apply Forall_alter; [done|]. intros old _ _.
  unfold name_defined. simpl. intros Hu.
  apply JsFacts.strict_eq_undefined in Hu. congruence.
Qed.

Lemma delete_keeps_names_defined id books :
  Forall name_defined books →
  Forall name_defined (deleteBookByIdController id books).2.
Proof.
  intros Hinv. unfold deleteBookByIdController.
  destruct (Js.findIndex (has_id id) books) as [index|]; [|done].
  by apply Forall_delete.
Qed.

Lemma handle_keeps_names_defined request books :
  Forall name_defined books → Forall name_defined (handle request books).2.
Proof.
  destruct request; simpl;
    auto using add_keeps_names_defined, edit_keeps_names_defined,
      delete_keeps_names_defined.
Qed.

(** C10, as stated, fails in its conclusion: a name that is a number is
    defined, create stores it, and lower-casing it is a TypeError, so the
    name filter of list faults on that stored record. *)
Lemma name_filter_faults_on_number_name :
  let payload :=
    Samples.only (Samples.number 1984) (Samples.number 328)
      (Samples.number 0) (Js.VBool false) in
  let books := (handle (Post "id-1" Samples.time_1 (Some payload)) []).2 in
  reachable books
  ∧ Forall name_defined books
  ∧ Forall (λ book, name_toLowerCase book = None) books
  ∧ books ≠ []
  ∧ (handle (GetAll (query_name "1984")) books).1 = Unexpected.
Proof.
  split; [apply reachable_step, reachable_start|].
  split; [by repeat constructor|]. split; [by repeat constructor|].
  by split.
Qed.

(** C10, amended. Every record the server ever holds has a name that is
    not [undefined], and every handler keeps it so.  A defined name need
    not be a string; the name filter of list does not fault as long as
    every stored name is one and the filter itself is a string, not the
    array of a repeated parameter. *)
Theorem stored_names_are_defined books :
  reachable books →
  Forall name_defined books
  ∧ (∀ request, Forall name_defined (handle request books).2)
  ∧ (Forall named_by_string books →
     ∀ query,
       (∀ values, Query.name query ≠ Some (Js.Repeated values)) →
       ∃ summaries, getAllBooksController query books = Listed summaries).
Proof.
  intros Hreach.
  assert (Forall name_defined books) as Hinv.
  { induction Hreach as [|request books _ IH]; [constructor|].
    by apply handle_keeps_names_defined. }
  split; [done|]. split.
  - intros request. by apply handle_keeps_names_defined.
  - intros Hstrings query Hsingle. eexists. apply list_total.
    unfold name_filter_applies.
    destruct (Query.name query) as [[name|values]|]; [done | | done].
    by destruct (Hsingle values).
Qed.

Lemma stored_names_are_defined_witness :
  Forall name_defined Samples.shelf
  ∧ (∀ request, Forall name_defined (handle request Samples.shelf).2)
  ∧ (Forall named_by_string Samples.shelf →
     ∀ query,
       (∀ values, Query.name query ≠ Some (Js.Repeated values)) →
       ∃ summaries,
         getAllBooksController query Samples.shelf = Listed summaries).
Proof.
  apply (stored_names_are_defined Samples.shelf).
  apply (reachable_step
    (Post "id-2" Samples.time_2 (Some (Samples.titled "Laskar Pelangi" true)))).
  apply (reachable_step
    (Post "id-1" Samples.time_1 (Some (Samples.titled "Bumi Manusia" false)))).
  apply reachable_start.
Defined.

End CatalogFacts.

(* ===================================================================== *)
(** * Further properties of the handlers                                  *)
(* ===================================================================== *)

Module StoreFacts.
Import Books Catalog Store.

#[local] Arguments addBookController : simpl never.
#[local] Arguments editBookByIdController : simpl never.

(** ** What each write does, case by case *)

Lemma valid_decision payload :
  Js.strict_eq (Payload.name payload) Js.VUndefined = false →
  Js.lt (Payload.pageCount payload) (Payload.readPage payload) = false →
  valid payload.
Proof.
  intros Hname Hpages. split; [|done]. intros Hu.
  apply JsFacts.strict_eq_undefined in Hu. congruence.
Qed.

Lemma add_cases id now payload books :
  (Payload.name payload = Js.VUndefined
   ∧ addBookController id now (Some payload) books = (MissingName, books))
  ∨ (Js.lt (Payload.pageCount payload) (Payload.readPage payload) = true
     ∧ addBookController id now (Some payload) books = (PageCountExceeded, books))
  ∨ (valid payload
     ∧ addBookController id now (Some payload) books
       = (Created id, books ++ [new_book id now payload])).
Proof.
  destruct (Js.strict_eq (Payload.name payload) Js.VUndefined) eqn:Hname.
  - left. unfold addBookController. rewrite Hname.
    by apply JsFacts.strict_eq_undefined in Hname.
  - destruct (Js.lt (Payload.pageCount payload) (Payload.readPage payload))
      eqn:Hpages.
    + right; left. unfold addBookController. by rewrite Hname, Hpages.
    + right; right. pose proof (valid_decision _ Hname Hpages) as Hvalid.
      split; [done|]. by apply CatalogFacts.add_valid.
Qed.

(** Either no record carries [id], or the collection splits at the first
    one that does. *)
Lemma find_cases id books :
  absent id books
  ∨ ∃ pre r post, books = pre ++ r :: post ∧ Book.id r = id ∧ absent id pre.
Proof.
  destruct (Js.findIndex (has_id id) books) as [i|] eqn:Hfind.
  - right. apply JsFacts.findIndex_Some in Hfind
      as (pre & r & post & -> & _ & Hr & Hpre).
    exists pre, r, post. split; [done|]. split.
    + by apply CatalogFacts.has_id_true.
    + eapply Forall_impl; [exact Hpre|]. intros book.
      apply CatalogFacts.has_id_false.
  - left. by apply CatalogFacts.findIndex_absent.
Qed.

Lemma split_present id pre r post :
  Book.id r = id → present id (pre ++ r :: post).
Proof. intros Hr. apply Exists_app. right. by apply Exists_cons_hd. Qed.

Lemma edit_first_cases id now payload pre r post :
  Book.id r = id → absent id pre →
  (Payload.name payload = Js.VUndefined
   ∧ editBookByIdController id now (Some payload) (pre ++ r :: post)
     = (MissingName, pre ++ r :: post))
  ∨ (Js.lt (Payload.pageCount payload) (Payload.readPage payload) = true
     ∧ editBookByIdController id now (Some payload) (pre ++ r :: post)
       = (PageCountExceeded, pre ++ r :: post))
  ∨ (valid payload
     ∧ editBookByIdController id now (Some payload) (pre ++ r :: post)
       = (Updated,
          pre ++ overwrite payload
                   (Js.strict_eq (Payload.pageCount payload)
                                 (Payload.readPage payload)) now r :: post)).
Proof.
  intros Hr Hpre.
  destruct (Js.strict_eq (Payload.name payload) Js.VUndefined) eqn:Hname.
  - left. unfold editBookByIdController.
    rewrite (CatalogFacts.findIndex_first _ _ _ _ Hr Hpre), Hname.
    by apply JsFacts.strict_eq_undefined in Hname.
  - destruct (Js.lt (Payload.pageCount payload) (Payload.readPage payload))
      eqn:Hpages.
    + right; left. unfold editBookByIdController.
      by rewrite (CatalogFacts.findIndex_first _ _ _ _ Hr Hpre), Hname, Hpages.
    + right; right. pose proof (valid_decision _ Hname Hpages) as Hvalid.
      split; [done|]. by apply CatalogFacts.edit_valid.
Qed.

Lemma delete_absent id books :
  absent id books → deleteBookByIdController id books = (NotFound, books).
Proof.
  intros Ha. unfold deleteBookByIdController.
  by rewrite (proj2 (CatalogFacts.findIndex_absent id books) Ha).
Qed.

(** ** Looking a record up *)

Lemma get_absent id books :
  absent id books → getBookByIdController id books = NotFound.
Proof.
  intros Ha. unfold getBookByIdController.
  by rewrite (CatalogFacts.filter_has_id_absent _ _ Ha).
Qed.

Lemma get_first id pre r post :
  Book.id r = id → absent id pre →
  getBookByIdController id (pre ++ r :: post) = Found r.
Proof.
  intros Hr Hpre. unfold getBookByIdController.
  by destruct (CatalogFacts.filter_has_id_first id pre r post Hr Hpre)
    as [rest ->].
Qed.

Lemma absent_app id l1 l2 :
  absent id (l1 ++ l2) ↔ absent id l1 ∧ absent id l2.
Proof. apply Forall_app. Qed.

Lemma absent_cons id book books :
  absent id (book :: books) ↔ Book.id book ≠ id ∧ absent id books.
Proof. unfold absent. by rewrite Forall_cons. Qed.

Lemma absent_present id books : absent id books → present id books → False.
Proof. intros Ha Hp. by apply (CatalogFacts.present_not_absent id books). Qed.

(** X1. Looking an id up answers 404 exactly when no record carries the
    id; when some record does, it answers 200 with the first record of the
    collection that carries it. *)
Theorem lookup_finds_first_with_id id books :
  (getBookByIdController id books = NotFound ↔ absent id books)
  ∧ (present id books →
     ∃ pre book post,
       books = pre ++ book :: post ∧ Book.id book = id ∧ absent id pre
       ∧ getBookByIdController id books = Found book
       ∧ code (getBookByIdController id books) = 200)
  ∧ (∀ book, getBookByIdController id books = Found book →
     ∃ pre post,
       books = pre ++ book :: post ∧ Book.id book = id ∧ absent id pre).
Proof.
  destruct (find_cases id books)
    as [Ha | (pre & r & post & -> & Hr & Hpre)].
  - rewrite (get_absent _ _ Ha). split; [done|]. split; [|done].
    intros Hp. destruct (absent_present _ _ Ha Hp).
  - rewrite (get_first _ _ _ _ Hr Hpre). split; [|split].
    + split; [done|]. intros Ha.
      destruct (absent_present _ _ Ha (split_present _ pre _ post Hr)).
    + intros _. by exists pre, r, post.
    + intros book [= <-]. by exists pre, post.
Qed.

(** X2. An update whose payload is there answers NotFound exactly for an
    id that no record carries; an update without a payload answers 500
    whatever the id, the payload being taken apart before the id is looked
    for.  Delete answers NotFound exactly for an id that no record carries
    and succeeds exactly for one that some record carries. *)
Theorem not_found_exactly_when_absent id now
    (payload : option Payload.t) books :
  ((editBookByIdController id now payload books).1 = NotFound
   ↔ payload ≠ None ∧ absent id books)
  ∧ (payload = None →
     (editBookByIdController id now payload books).1 = Unexpected)
  ∧ ((deleteBookByIdController id books).1 = NotFound ↔ absent id books)
  ∧ ((deleteBookByIdController id books).1 = Deleted ↔ present id books).
Proof.
  assert (((deleteBookByIdController id books).1 = NotFound
           ↔ absent id books)
          ∧ ((deleteBookByIdController id books).1 = Deleted
             ↔ present id books)) as Hdelete.
  { destruct (find_cases id books)
      as [Ha | (pre & r & post & -> & Hr & Hpre)].
    - rewrite (delete_absent _ _ Ha). simpl. split; [done|].
      split; [done|]. intros Hp. destruct (absent_present _ _ Ha Hp).
    - pose proof (split_present _ pre _ post Hr) as Hp.
      rewrite (CatalogFacts.delete_first _ _ _ _ Hr Hpre). simpl.
      split; [|done].
      split; [done | intros Ha; destruct (absent_present _ _ Ha Hp)]. }
  assert (((editBookByIdController id now payload books).1 = NotFound
           ↔ payload ≠ None ∧ absent id books)
          ∧ (payload = None →
             (editBookByIdController id now payload books).1 = Unexpected))
    as [Hnotfound Hunexpected];
    [|destruct Hdelete as [Hdelete1 Hdelete2];
      split; [exact Hnotfound|]; split; [exact Hunexpected|];
      split; [exact Hdelete1 | exact Hdelete2]].
  destruct payload as [payload|].
  - destruct (find_cases id books)
      as [Ha | (pre & r & post & -> & Hr & Hpre)].
    + rewrite (CatalogFacts.edit_absent _ now payload _ Ha). simpl.
      by repeat split.
    + pose proof (split_present _ pre _ post Hr) as Hp.
      destruct (edit_first_cases id now payload pre r post Hr Hpre)
        as [[_ ->] | [[_ ->] | [_ ->]]]; simpl;
        (split; [|done]);
        (split; [done | intros [_ Ha]; destruct (absent_present _ _ Ha Hp)]).
  - split; [|done]. split; [done | by intros [? _]].
Qed.

(** X3. Create answers 500 when the request has no payload, and 400 or
    201 when it has one (its fields being primitive values, as everywhere
    here): the 500 response after the [isSuccess] test is never the
    answer.  The answer is the 201 one exactly when the payload is there,
    its name is defined and [pageCount < readPage] does not hold. *)
Theorem create_never_falls_through id now
    (payload : option Payload.t) books :
  (addBookController id now payload books).1 ≠ InsertionFailed
  ∧ (payload = None →
     addBookController id now payload books = (Unexpected, books))
  ∧ (payload ≠ None →
     code (addBookController id now payload books).1 = 400
     ∨ code (addBookController id now payload books).1 = 201)
  ∧ ((addBookController id now payload books).1 = Created id
     ↔ ∃ fields, payload = Some fields ∧ valid fields).
Proof.
  destruct payload as [payload|].
  - destruct (add_cases id now payload books)
      as [[Hname ->] | [[Hpages ->] | [Hvalid ->]]]; simpl.
    + split; [done|]. split; [done|]. split; [by left|].
      split; [done|]. intros (fields & [= <-] & Hdefined & _). done.
    + split; [done|]. split; [done|]. split; [by left|].
      split; [done|]. intros (fields & [= <-] & _ & Hgt).
      unfold Js.gt in Hgt. congruence.
    + split; [done|]. split; [done|]. split; [by right|].
      split; [by exists payload | done].
  - split; [done|]. split; [done|]. split; [done|].
    split; [done | by intros (fields & ? & _)].
Qed.

Lemma failure_keeps_add id now (payload : option Payload.t) books :
  400 ≤ code (addBookController id now payload books).1 →
  (addBookController id now payload books).2 = books.
Proof.
  destruct payload as [payload|]; [|done].
  destruct (add_cases id now payload books)
    as [[_ ->] | [[_ ->] | [_ ->]]]; simpl; [done | done | lia].
Qed.

Lemma failure_keeps_edit id now (payload : option Payload.t) books :
  400 ≤ code (editBookByIdController id now payload books).1 →
  (editBookByIdController id now payload books).2 = books.
Proof.
  destruct payload as [payload|]; [|done].
  destruct (find_cases id books)
    as [Ha | (pre & r & post & -> & Hr & Hpre)].
  - by rewrite (CatalogFacts.edit_absent _ now payload _ Ha).
  - destruct (edit_first_cases id now payload pre r post Hr Hpre)
      as [[_ ->] | [[_ ->] | [_ ->]]]; simpl; [done | done | lia].
Qed.

Lemma failure_keeps_delete id books :
  400 ≤ code (deleteBookByIdController id books).1 →
  (deleteBookByIdController id books).2 = books.
Proof.
  destruct (find_cases id books)
    as [Ha | (pre & r & post & -> & Hr & Hpre)].
  - by rewrite (delete_absent _ _ Ha).
  - rewrite (CatalogFacts.delete_first _ _ _ _ Hr Hpre). simpl. lia.
Qed.

(** X4. A request that is answered with a failure (400, 404 or 500)
    leaves the collection as it was, whichever handler it went to. *)
Theorem failure_changes_nothing request books :
  400 ≤ code (handle request books).1 →
  (handle request books).2 = books.
Proof.
  destruct request; simpl;
    auto using failure_keeps_add, failure_keeps_edit, failure_keeps_delete.
Qed.

Lemma failure_changes_nothing_witness :
  (handle (Put "id-1" Samples.time_2 (Some (Samples.buku_a 100 101)))
     Samples.shelf).2 = Samples.shelf.
Proof.
  apply (failure_changes_nothing
    (Put "id-1" Samples.time_2 (Some (Samples.buku_a 100 101))) Samples.shelf).
  vm_compute. discriminate.
Defined.

Lemma list_kind query books :
  (∃ summaries, getAllBooksController query books = Listed summaries)
  ∨ getAllBooksController query books = Unexpected.
Proof.
  unfold getAllBooksController.
  match goal with
  | |- context [match ?o with Some _ => _ | None => Unexpected end] =>
      destruct o
  end; eauto.
Qed.

Lemma get_kind id books :
  (∃ book, getBookByIdController id books = Found book)
  ∨ getBookByIdController id books = NotFound.
Proof.
  unfold getBookByIdController.
  destruct (List.filter (has_id id) books); eauto.
Qed.

(** X5. The size of the collection after a request: one more after a 201,
    one less after a successful delete, the same after anything else. *)
Theorem size_follows_response request books :
  length (handle request books).2
  = size_after (handle request books).1 (length books).
Proof.
  destruct request as [id now [payload|] | query | id | id now [payload|] | id];
    simpl.
  - destruct (add_cases id now payload books)
      as [[_ ->] | [[_ ->] | [_ ->]]]; simpl; try done.
    rewrite length_app. simpl. lia.
  - done.
  - by destruct (list_kind query books) as [[summaries ->] | ->].
  - by destruct (get_kind id books) as [[book ->] | ->].
  - destruct (find_cases id books)
      as [Ha | (pre & r & post & -> & Hr & Hpre)].
    + by rewrite (CatalogFacts.edit_absent _ now payload _ Ha).
    + destruct (edit_first_cases id now payload pre r post Hr Hpre)
        as [[_ ->] | [[_ ->] | [_ ->]]]; simpl; try done.
      by rewrite !length_app.
  - done.
  - destruct (find_cases id books)
      as [Ha | (pre & r & post & -> & Hr & Hpre)].
    + by rewrite (delete_absent _ _ Ha).
    + rewrite (CatalogFacts.delete_first _ _ _ _ Hr Hpre). simpl.
      rewrite !length_app. simpl. lia.
Qed.

(** ** Updates *)

(** X6. On an id that exists, an update without a name is answered with
    MissingName and changes nothing, also when readPage is greater than
    pageCount: the name is looked at first. *)
Theorem update_reports_missing_name_first id now payload books :
  present id books →
  Payload.name payload = Js.VUndefined →
  editBookByIdController id now (Some payload) books = (MissingName, books).
Proof.
  intros (pre & r & post & -> & Hr & Hpre)%CatalogFacts.present_split Hname.
  unfold editBookByIdController.
  rewrite (CatalogFacts.findIndex_first _ _ _ _ Hr Hpre).
  by rewrite (proj2 (JsFacts.strict_eq_undefined _) Hname).
Qed.

Lemma update_reports_missing_name_first_witness :
  editBookByIdController "id-1" Samples.time_2
    (Some (Samples.only Js.VUndefined (Samples.number 1) (Samples.number 2)
       Js.VUndefined))
    Samples.shelf
  = (MissingName, Samples.shelf).
Proof.
  apply (update_reports_missing_name_first "id-1" Samples.time_2
    (Samples.only Js.VUndefined (Samples.number 1) (Samples.number 2)
       Js.VUndefined)
    Samples.shelf); [apply Exists_cons_hd; reflexivity | reflexivity].
Defined.

(** X7. After an accepted update of an id, looking the id up gives a
    record with the id and insertedAt of the record found before, every
    other field as the payload has it, finished as (pageCount ===
    readPage) and updatedAt as the time of the update: what is written is
    what is read. *)
Theorem update_then_lookup id now payload books :
  present id books →
  Payload.name payload ≠ Js.VUndefined →
  Js.gt (Payload.readPage payload) (Payload.pageCount payload) = false →
  ∃ old new,
    getBookByIdController id books = Found old
    ∧ (editBookByIdController id now (Some payload) books).1 = Updated
    ∧ getBookByIdController id
        (editBookByIdController id now (Some payload) books).2
      = Found new
    ∧ new = {| Book.id := Book.id old;
               Book.name := Payload.name payload;
               Book.year := Payload.year payload;
               Book.author := Payload.author payload;
               Book.summary := Payload.summary payload;
               Book.publisher := Payload.publisher payload;
               Book.pageCount := Payload.pageCount payload;
               Book.readPage := Payload.readPage payload;
               Book.finished :=
                 Js.strict_eq (Payload.pageCount payload)
                              (Payload.readPage payload);
               Book.reading := Payload.reading payload;
               Book.insertedAt := Book.insertedAt old;
               Book.updatedAt := now |}.
Proof.
  intros (pre & r & post & -> & Hr & Hpre)%CatalogFacts.present_split
    Hname Hpages.
  exists r. eexists. rewrite (get_first _ _ _ _ Hr Hpre).
  rewrite (CatalogFacts.edit_valid id now payload pre r post Hr Hpre)
    by done.
  split; [done|]. split; [done|]. split; [|reflexivity].
  simpl. by apply get_first.
Qed.

Lemma update_then_lookup_witness :
  ∃ old new,
    getBookByIdController "id-2" Samples.shelf = Found old
    ∧ (editBookByIdController "id-2" Samples.time_2
         (Some (Samples.buku_a 100 100)) Samples.shelf).1 = Updated
    ∧ getBookByIdController "id-2"
        (editBookByIdController "id-2" Samples.time_2
           (Some (Samples.buku_a 100 100)) Samples.shelf).2
      = Found new
    ∧ new = {| Book.id := Book.id old;
               Book.name := Js.VStr "Buku A";
               Book.year := Samples.number 2010;
               Book.author := Js.VStr "John Doe";
               Book.summary := Js.VStr "Lorem ipsum dolor sit amet";
               Book.publisher := Js.VStr "Dicoding Indonesia";
               Book.pageCount := Samples.number 100;
               Book.readPage := Samples.number 100;
               Book.finished := true;
               Book.reading := Js.VBool false;
               Book.insertedAt := Book.insertedAt old;
               Book.updatedAt := Samples.time_2 |}.
Proof.
  apply (update_then_lookup "id-2" Samples.time_2 (Samples.buku_a 100 100)
    Samples.shelf);
    [apply Exists_cons_tl, Exists_cons_hd; reflexivity
    | discriminate | reflexivity].
Defined.

Lemma edit_stamps id now (payload : option Payload.t) books :
  stamps (editBookByIdController id now payload books).2 = stamps books.
Proof.
  destruct payload as [payload|]; [|done].
  destruct (find_cases id books)
    as [Ha | (pre & r & post & -> & Hr & Hpre)].
  - by rewrite (CatalogFacts.edit_absent _ now payload _ Ha).
  - destruct (edit_first_cases id now payload pre r post Hr Hpre)
      as [[_ ->] | [[_ ->] | [_ ->]]]; simpl; try done.
    unfold stamps. by rewrite !map_app.
Qed.

Lemma ids_of_stamps books : ids books = map fst (stamps books).
Proof.
  unfold ids, stamps. rewrite map_map. by apply map_ext.
Qed.

(** X8. An update, accepted or not, with a payload or without, never
    changes which ids the collection holds, their order, or the insertedAt
    of any record. *)
Theorem update_keeps_ids_and_insertedAt id now
    (payload : option Payload.t) books :
  stamps (editBookByIdController id now payload books).2 = stamps books
  ∧ ids (editBookByIdController id now payload books).2 = ids books
  ∧ length (editBookByIdController id now payload books).2 = length books.
Proof.
  pose proof (edit_stamps id now payload books) as Hstamps.
  split; [done|]. split.
  - by rewrite !ids_of_stamps, Hstamps.
  - apply (f_equal length) in Hstamps. unfold stamps in Hstamps.
    by rewrite !length_map in Hstamps.
Qed.

(** X9. The last update wins: an accepted update gives the same response
    and the same collection whether or not another update of the same id
    came just before it. *)
Theorem last_update_wins id now1 (payload1 : option Payload.t)
    now2 payload2 books :
  Payload.name payload2 ≠ Js.VUndefined →
  Js.gt (Payload.readPage payload2) (Payload.pageCount payload2) = false →
  editBookByIdController id now2 (Some payload2)
    (editBookByIdController id now1 payload1 books).2
  = editBookByIdController id now2 (Some payload2) books.
Proof.
  intros Hname Hpages. destruct payload1 as [payload1|]; [|done].
  destruct (find_cases id books)
    as [Ha | (pre & r & post & -> & Hr & Hpre)].
  - by rewrite (CatalogFacts.edit_absent _ now1 payload1 _ Ha).
  - destruct (edit_first_cases id now1 payload1 pre r post Hr Hpre)
      as [[_ ->] | [[_ ->] | [_ ->]]]; simpl; try done.
    rewrite !CatalogFacts.edit_valid by done. done.
Qed.

Lemma last_update_wins_witness :
  editBookByIdController "id-1" Samples.time_2 (Some (Samples.buku_a 100 100))
    (editBookByIdController "id-1" Samples.time_1
       (Some (Samples.titled "Bumi Manusia II" true)) Samples.shelf).2
  = editBookByIdController "id-1" Samples.time_2 (Some (Samples.buku_a 100 100))
      Samples.shelf.
Proof.
  apply (last_update_wins "id-1" Samples.time_1
    (Some (Samples.titled "Bumi Manusia II" true)) Samples.time_2
    (Samples.buku_a 100 100) Samples.shelf); [discriminate | reflexivity].
Defined.

(** ** Writes and the other records *)

(** A record with another id does not count in a lookup. *)
Lemma get_skip id pre r post :
  Book.id r ≠ id →
  getBookByIdController id (pre ++ r :: post)
  = getBookByIdController id (pre ++ post).
Proof.
  intros Hne. unfold getBookByIdController.
  rewrite !List.filter_app. simpl.
  by rewrite (proj2 (CatalogFacts.has_id_false id r) Hne).
Qed.

Lemma get_append id books r :
  Book.id r ≠ id →
  getBookByIdController id (books ++ [r]) = getBookByIdController id books.
Proof. intros Hne. by rewrite (get_skip _ _ _ _ Hne), app_nil_r. Qed.

(** X10. A create, update or delete addressed to one id, accepted or not,
    leaves the lookup of every other id as it was. *)
Theorem writes_leave_other_ids_alone request id books :
  ¬ writes_to request id →
  getBookByIdController id (handle request books).2
  = getBookByIdController id books.
Proof.
  intros Hother.
  destruct request as [id' now [payload|] | query | id' | id' now [payload|] | id'];
    simpl in *; try done.
  - destruct (add_cases id' now payload books)
      as [[_ ->] | [[_ ->] | [_ ->]]]; simpl; try done.
    by apply get_append.
  - destruct (find_cases id' books)
      as [Ha | (pre & r & post & -> & Hr & Hpre)].
    + by rewrite (CatalogFacts.edit_absent _ now payload _ Ha).
    + destruct (edit_first_cases id' now payload pre r post Hr Hpre)
        as [[_ ->] | [[_ ->] | [_ ->]]]; simpl; try done.
      rewrite !get_skip; [done | by rewrite Hr | by simpl; rewrite Hr].
  - destruct (find_cases id' books)
      as [Ha | (pre & r & post & -> & Hr & Hpre)].
    + by rewrite (delete_absent _ _ Ha).
    + rewrite (CatalogFacts.delete_first _ _ _ _ Hr Hpre). simpl.
      rewrite get_skip; [done | by rewrite Hr].
Qed.

Lemma writes_leave_other_ids_alone_witness :
  getBookByIdController "id-2"
    (handle (Delete "id-1") Samples.shelf).2
  = getBookByIdController "id-2" Samples.shelf.
Proof.
  apply (writes_leave_other_ids_alone (Delete "id-1") "id-2" Samples.shelf).
  simpl. discriminate.
Defined.

(** X11. Deleting the id that an accepted create has just been given, an
    id no stored record carried, gives back the collection as it was
    before the create. *)
Theorem create_then_delete id now payload books :
  absent id books →
  Payload.name payload ≠ Js.VUndefined →
  Js.gt (Payload.readPage payload) (Payload.pageCount payload) = false →
  deleteBookByIdController id (addBookController id now (Some payload) books).2
  = (Deleted, books).
Proof.
  intros Hfresh Hname Hpages.
  rewrite CatalogFacts.add_valid by done. simpl.
  rewrite (CatalogFacts.delete_first id books (new_book id now payload) []
    eq_refl Hfresh).
  by rewrite app_nil_r.
Qed.

Lemma create_then_delete_witness :
  deleteBookByIdController "id-3"
    (addBookController "id-3" Samples.time_2 (Some (Samples.buku_a 100 25))
       Samples.shelf).2
  = (Deleted, Samples.shelf).
Proof.
  apply (create_then_delete "id-3" Samples.time_2 (Samples.buku_a 100 25)
    Samples.shelf);
    [repeat constructor; discriminate | discriminate | reflexivity].
Defined.

(** ** Unique ids *)

Lemma unique_ids_rest pre r post :
  NoDup (ids (pre ++ r :: post)) → absent (Book.id r) post.
Proof.
  unfold ids. rewrite map_app. simpl. intros Hnodup.
  apply NoDup_app in Hnodup as (_ & _ & Hrest).
  apply NoDup_cons in Hrest as [Hnotin _].
  apply Forall_forall. intros book Hin Heq. apply Hnotin.
  rewrite <- Heq. apply list_elem_of_fmap. by exists book.
Qed.

(** X12. Where ids are unique, a delete leaves no record with the id: a
    lookup of the id then answers 404 and a second delete answers
    NotFound. *)
Theorem delete_leaves_no_record_with_id id books :
  NoDup (ids books) →
  absent id (deleteBookByIdController id books).2
  ∧ getBookByIdController id (deleteBookByIdController id books).2
    = NotFound
  ∧ deleteBookByIdController id (deleteBookByIdController id books).2
    = (NotFound, (deleteBookByIdController id books).2).
Proof.
  intros Hunique.
  assert (absent id (deleteBookByIdController id books).2) as Hgone.
  { destruct (find_cases id books)
      as [Ha | (pre & r & post & -> & Hr & Hpre)].
    - by rewrite (delete_absent _ _ Ha).
    - rewrite (CatalogFacts.delete_first _ _ _ _ Hr Hpre). simpl.
      apply absent_app. split; [done|]. rewrite <- Hr.
      by apply (unique_ids_rest pre). }
  split; [done|]. split; [by apply get_absent | by apply delete_absent].
Qed.

Lemma delete_leaves_no_record_with_id_witness :
  absent "id-1" (deleteBookByIdController "id-1" Samples.shelf).2
  ∧ getBookByIdController "id-1"
      (deleteBookByIdController "id-1" Samples.shelf).2
    = NotFound
  ∧ deleteBookByIdController "id-1"
      (deleteBookByIdController "id-1" Samples.shelf).2
    = (NotFound, (deleteBookByIdController "id-1" Samples.shelf).2).
Proof.
  apply (delete_leaves_no_record_with_id "id-1" Samples.shelf).
  apply (bool_decide_unpack _). vm_compute. exact I.
Defined.

(** X13. Unique ids are kept: if no two records share an id and every
    POST comes with an id that no stored record carries, then no two
    records share an id after the request either.  Update and delete
    need nothing for that. *)
Theorem unique_ids_are_kept request books :
  NoDup (ids books) → fresh request books →
  NoDup (ids (handle request books).2).
Proof.
  intros Hunique Hfresh.
  destruct request as [id now [payload|] | query | id | id now [payload|] | id];
    simpl in *; try done.
  - destruct (add_cases id now payload books)
      as [[_ ->] | [[_ ->] | [_ ->]]]; simpl; try done.
    unfold ids. rewrite map_app. simpl. apply NoDup_app.
    split; [done|]. split; [|apply NoDup_singleton].
    intros id' Hin Hnew. apply list_elem_of_singleton in Hnew as ->.
    apply list_elem_of_fmap in Hin as (book & Hid & Hin).
    unfold absent in Hfresh. rewrite Forall_forall in Hfresh.
    by apply (Hfresh book).
  - pose proof (edit_stamps id now (Some payload) books) as Hstamps.
    by rewrite !ids_of_stamps, Hstamps, <- ids_of_stamps.
  - destruct (find_cases id books)
      as [Ha | (pre & r & post & -> & Hr & Hpre)].
    + by rewrite (delete_absent _ _ Ha).
    + rewrite (CatalogFacts.delete_first _ _ _ _ Hr Hpre). simpl.
      eapply sublist_NoDup; [exact Hunique|].
      unfold ids. rewrite !map_app. simpl.
      apply sublist_app; [done|]. by apply sublist_cons.
Qed.

Lemma unique_ids_are_kept_witness :
  NoDup (ids (handle
    (Post "id-3" Samples.time_2 (Some (Samples.buku_a 100 25))) Samples.shelf).2).
Proof.
  apply (unique_ids_are_kept
    (Post "id-3" Samples.time_2 (Some (Samples.buku_a 100 25))) Samples.shelf).
  - apply (bool_decide_unpack _). vm_compute. exact I.
  - repeat constructor; discriminate.
Defined.

(** ** What every stored record satisfies *)

Lemma handle_keeps_derived request books :
  Forall derived books → Forall derived (handle request books).2.
Proof.
  intros Hinv.
  destruct request as [id now [payload|] | query | id | id now [payload|] | id];
    simpl; try done.
  - destruct (add_cases id now payload books)
      as [[_ ->] | [[_ ->] | [[_ Hpages] ->]]]; simpl; try done.
    apply Forall_app. split; [done|]. by repeat constructor.
  - destruct (find_cases id books)
      as [Ha | (pre & r & post & -> & Hr & Hpre)].
    + by rewrite (CatalogFacts.edit_absent _ now payload _ Ha).
    + destruct (edit_first_cases id now payload pre r post Hr Hpre)
        as [[_ ->] | [[_ ->] | [[_ Hpages] ->]]]; simpl; try done.
      apply Forall_app in Hinv as [Hpre' Hrest].
      apply Forall_cons in Hrest as [_ Hpost].
      apply Forall_app. split; [done|]. by repeat constructor.
  - destruct (find_cases id books)
      as [Ha | (pre & r & post & -> & Hr & Hpre)].
    + by rewrite (delete_absent _ _ Ha).
    + rewrite (CatalogFacts.delete_first _ _ _ _ Hr Hpre). simpl.
      apply Forall_app in Hinv as [Hpre' Hrest].
      apply Forall_cons in Hrest as [_ Hpost].
      by apply Forall_app.
Qed.

(** X14. In every collection the server can hold, each record has
    finished equal to (pageCount === readPage) and does not have
    pageCount < readPage: the flag cannot be set on its own, and no write
    gets a record with more pages read than it has past the checks. *)
Theorem stored_records_are_derived books :
  reachable books → Forall derived books.
Proof.
  induction 1 as [|request books _ IH]; [constructor|].
  by apply handle_keeps_derived.
Qed.

Lemma stored_records_are_derived_witness : Forall derived Samples.shelf.
Proof.
  apply (stored_records_are_derived Samples.shelf).
  apply (reachable_step
    (Post "id-2" Samples.time_2 (Some (Samples.titled "Laskar Pelangi" true)))).
  apply (reachable_step
    (Post "id-1" Samples.time_1 (Some (Samples.titled "Bumi Manusia" false)))).
  apply reachable_start.
Defined.

(** ** Listing *)

Lemma strings_or_fault books :
  Forall named_by_string books
  ∨ Exists (λ book, name_toLowerCase book = None) books.
Proof.
  induction books as [|book books [IH | IH]].
  - left. constructor.
  - destruct (Book.name book) as [| | b | x | s] eqn:Hname;
      try (right; apply Exists_cons_hd; unfold name_toLowerCase;
           by rewrite Hname).
    left. constructor; [by exists s | done].
  - right. by apply Exists_cons_tl.
Qed.

(** A list that is answered with 200 holds what [satisfies] selects. *)
Lemma listed_total query books summaries :
  getAllBooksController query books = Listed summaries →
  summaries = map summary_of (List.filter (satisfies query) books).
Proof.
  intros Hlisted.
  assert (name_filter_applies query books) as Hok.
  { unfold name_filter_applies.
    destruct (Query.name query) as [[name|values]|] eqn:Hname; [| |done].
    - destruct (strings_or_fault books) as [Hstrings | Hfault]; [done|].
      assert (getAllBooksController query books = Unexpected) as Hfails.
      { apply CatalogFacts.list_faults_iff. by rewrite Hname. }
      congruence.
    - destruct books as [|book books]; [done|].
      assert (getAllBooksController query (book :: books) = Unexpected)
        as Hfails.
      { apply CatalogFacts.list_faults_iff. by rewrite Hname. }
      congruence. }
  rewrite (CatalogFacts.list_total _ _ Hok) in Hlisted. congruence.
Qed.

Lemma filter_sublist {A} (p : A → bool) (l : list A) :
  List.filter p l `sublist_of` l.
Proof.
  induction l as [|x l IH]; simpl; [constructor|].
  destruct (p x); by constructor.
Qed.

(** X15. Whatever the filters, a list that is answered with 200 holds
    summaries of stored records only, each stored record at most once, in
    the order of the collection: nothing is made up, repeated or moved. *)
Theorem list_is_a_sublist query books summaries :
  getAllBooksController query books = Listed summaries →
  summaries `sublist_of` map summary_of books
  ∧ (length summaries ≤ length books)%nat.
Proof.
  intros ->%listed_total.
  assert (map summary_of (List.filter (satisfies query) books)
          `sublist_of` map summary_of books) as Hsub.
  { apply fmap_sublist, filter_sublist. }
  split; [done|]. apply sublist_length in Hsub.
  by rewrite (length_map summary_of books) in Hsub.
Qed.

Lemma list_is_a_sublist_witness :
  [ {| Summary.id := "id-1"; Summary.name := Js.VStr "Bumi Manusia";
       Summary.publisher := Js.VUndefined |} ]
  `sublist_of` map summary_of Samples.shelf
  ∧ (length
       [ {| Summary.id := "id-1"; Summary.name := Js.VStr "Bumi Manusia";
            Summary.publisher := Js.VUndefined |} ]
     ≤ length Samples.shelf)%nat.
Proof.
  apply (list_is_a_sublist Samples.manusia_unfinished Samples.shelf).
  reflexivity.
Defined.

(** X16. The name filter does not tell upper case from lower case in the
    filter itself: two name filters with the same lower-case form get the
    same answer, whatever the other filters and the collection. *)
Theorem name_filter_ignores_its_case name1 name2 query books :
  Js.toLowerCase name1 = Js.toLowerCase name2 →
  getAllBooksController (with_name name1 query) books
  = getAllBooksController (with_name name2 query) books.
Proof.
  intros Hsame. unfold getAllBooksController, with_name. simpl.
  by rewrite Hsame.
Qed.

Lemma name_filter_ignores_its_case_witness :
  getAllBooksController
    (with_name "MANUSIA" Samples.manusia_unfinished) Samples.shelf
  = getAllBooksController
      (with_name "manusia" Samples.manusia_unfinished) Samples.shelf.
Proof.
  apply (name_filter_ignores_its_case "MANUSIA" "manusia"
    Samples.manusia_unfinished Samples.shelf).
  reflexivity.
Defined.

Lemma includes_empty hay : Js.includes hay "" = true.
Proof. apply JsFacts.includes_spec. by exists EmptyString, hay. Qed.

(** X17. An empty name filter ([?name=]) selects every record when the
    stored names are strings: the empty string is contained in each. *)
Theorem empty_name_filter_selects_all books :
  Forall named_by_string books →
  getAllBooksController (query_name "") books
  = Listed (map summary_of books).
Proof.
  intros Hstrings. rewrite CatalogFacts.list_total by done.
  do 2 f_equal. rewrite <- (JsFacts.filter_true books) at 2.
  apply List.filter_ext_in. intros book Hin.
  rewrite Forall_forall in Hstrings.
  destruct (Hstrings book) as [s Hs]; [by apply list_elem_of_In|].
  unfold satisfies, name_contains. simpl. rewrite Hs.
  by rewrite includes_empty.
Qed.

Lemma empty_name_filter_selects_all_witness :
  getAllBooksController (query_name "") Samples.shelf
  = Listed (map summary_of Samples.shelf).
Proof.
  apply (empty_name_filter_selects_all Samples.shelf).
  repeat constructor; eexists; reflexivity.
Defined.

(** X18. A record whose reading field is not a boolean (a record created
    without one, say) is selected by no reading filter: if no stored record
    has a boolean there, every reading filter gets the empty list. *)
Theorem reading_filter_needs_a_boolean reading books :
  Forall (λ book, ¬ boolean_reading book) books →
  getAllBooksController (query_reading reading) books = Listed [].
Proof.
  intros Hnone. rewrite CatalogFacts.list_total by done.
  assert (List.filter (satisfies (query_reading reading)) books = [])
    as ->; [|done].
  induction Hnone as [|book books Hbook _ IH]; simpl; [done|].
  rewrite IH. unfold satisfies. simpl.
  destruct (Book.reading book) as [| | b | x | s] eqn:Hreading; try done.
  destruct Hbook. by exists b.
Qed.

Lemma reading_filter_needs_a_boolean_witness :
  getAllBooksController (query_reading "1")
    (Samples.after_post "id-1"
       (Samples.only (Js.VStr "Buku A") (Samples.number 100)
          (Samples.number 25) Js.VUndefined))
  = Listed [].
Proof.
  apply (reading_filter_needs_a_boolean "1"
    (Samples.after_post "id-1"
       (Samples.only (Js.VStr "Buku A") (Samples.number 100)
          (Samples.number 25) Js.VUndefined))).
  repeat constructor. intros [b Hb]. discriminate.
Defined.

Lemma filter_split {A B} (f : A → B) (p : A → bool) (l : list A) :
  map f (List.filter p l) ++ map f (List.filter (λ x, negb (p x)) l)
  ≡ₚ map f l.
Proof.
  induction l as [|x l IH]; simpl; [done|].
  destruct (p x); simpl.
  - by constructor.
  - rewrite <- Permutation_middle. by constructor.
Qed.

(** X19. A finished filter that stands for true and one that stands for
    false split the collection: both are answered with 200, and their two
    lists together hold the summary of every record exactly once. *)
Theorem finished_filters_split_the_collection yes no books :
  Js.truthy_number yes = true → Js.truthy_number no = false →
  ∃ finished unfinished,
    getAllBooksController (query_finished yes) books = Listed finished
    ∧ getAllBooksController (query_finished no) books = Listed unfinished
    ∧ finished ++ unfinished ≡ₚ map summary_of books.
Proof.
  intros Hyes Hno. do 2 eexists.
  split; [by apply CatalogFacts.list_total|].
  split; [by apply CatalogFacts.list_total|].
  assert (List.filter (satisfies (query_finished no)) books
          = List.filter (λ book, negb (satisfies (query_finished yes) book))
              books) as ->.
  { apply List.filter_ext. intros book.
    unfold satisfies, query_finished. cbn [Query.name Query.reading Query.finished].
    change (Js.truthy_param (Js.Single yes)) with (Js.truthy_number yes).
    change (Js.truthy_param (Js.Single no)) with (Js.truthy_number no).
    rewrite Hyes, Hno. by destruct (Book.finished book). }
  apply filter_split.
Qed.

Lemma finished_filters_split_the_collection_witness :
  ∃ finished unfinished,
    getAllBooksController (query_finished "1") Samples.shelf
    = Listed finished
    ∧ getAllBooksController (query_finished "0") Samples.shelf
      = Listed unfinished
    ∧ finished ++ unfinished ≡ₚ map summary_of Samples.shelf.
Proof.
  apply (finished_filters_split_the_collection "1" "0" Samples.shelf);
    reflexivity.
Defined.

(** ** Creating, then reading *)

(** X20. After an accepted create whose id no stored record carried,
    looking the id up gives the record with the fields of the payload,
    finished set to (pageCount === readPage) and both timestamps equal to
    the time of the request. *)
Theorem create_then_lookup id now payload books :
  absent id books →
  Payload.name payload ≠ Js.VUndefined →
  Js.gt (Payload.readPage payload) (Payload.pageCount payload) = false →
  getBookByIdController id (addBookController id now (Some payload) books).2
  = Found (new_book id now payload)
  ∧ Book.insertedAt (new_book id now payload) = now
  ∧ Book.updatedAt (new_book id now payload) = now.
Proof.
  intros Hfresh Hname Hpages. rewrite CatalogFacts.add_valid by done.
  split; [|done]. simpl. by apply get_first.
Qed.

Lemma create_then_lookup_witness :
  getBookByIdController "id-3"
    (addBookController "id-3" Samples.time_2 (Some (Samples.buku_a 100 25))
       Samples.shelf).2
  = Found (new_book "id-3" Samples.time_2 (Samples.buku_a 100 25))
  ∧ Book.insertedAt (new_book "id-3" Samples.time_2 (Samples.buku_a 100 25))
    = Samples.time_2
  ∧ Book.updatedAt (new_book "id-3" Samples.time_2 (Samples.buku_a 100 25))
    = Samples.time_2.
Proof.
  apply (create_then_lookup "id-3" Samples.time_2 (Samples.buku_a 100 25)
    Samples.shelf);
    [repeat constructor; discriminate | discriminate | reflexivity].
Defined.

(** X21. Were [nanoid] to hand out an id that a stored record carries, the
    create would still be answered with 201 for a valid payload, yet the
    lookup of that id would go on giving the older record: the new one is
    appended behind it and the lookup stops at the first. *)
Theorem colliding_id_is_shadowed id now payload books :
  present id books →
  Payload.name payload ≠ Js.VUndefined →
  Js.gt (Payload.readPage payload) (Payload.pageCount payload) = false →
  (addBookController id now (Some payload) books).1 = Created id
  ∧ getBookByIdController id (addBookController id now (Some payload) books).2
    = getBookByIdController id books.
Proof.
  intros (pre & r & post & -> & Hr & Hpre)%CatalogFacts.present_split
    Hname Hpages.
  rewrite CatalogFacts.add_valid by done. split; [done|]. simpl.
  rewrite <- app_assoc. simpl.
  by rewrite !(get_first _ _ _ _ Hr Hpre).
Qed.

Lemma colliding_id_is_shadowed_witness :
  (addBookController "id-1" Samples.time_2 (Some (Samples.buku_a 100 25))
     Samples.shelf).1 = Created "id-1"
  ∧ getBookByIdController "id-1"
      (addBookController "id-1" Samples.time_2 (Some (Samples.buku_a 100 25))
         Samples.shelf).2
    = getBookByIdController "id-1" Samples.shelf.
Proof.
  apply (colliding_id_is_shadowed "id-1" Samples.time_2
    (Samples.buku_a 100 25) Samples.shelf);
    [apply Exists_cons_hd; reflexivity | discriminate | reflexivity].
Defined.

(** X22. The list without filters follows the order of insertion: after
    an accepted create it is the list from before with the summary of the
    new record at its end, whatever the stored names are. *)
Theorem create_appends_to_the_list id now payload books :
  Payload.name payload ≠ Js.VUndefined →
  Js.gt (Payload.readPage payload) (Payload.pageCount payload) = false →
  getAllBooksController no_filter books = Listed (map summary_of books)
  ∧ getAllBooksController no_filter
      (addBookController id now (Some payload) books).2
    = Listed (map summary_of books
              ++ [ {| Summary.id := id;
                      Summary.name := Payload.name payload;
                      Summary.publisher := Payload.publisher payload |} ]).
Proof.
  intros Hname Hpages. rewrite CatalogFacts.add_valid by done.
  split; [done|]. unfold getAllBooksController. simpl.
  by rewrite map_app.
Qed.

Lemma create_appends_to_the_list_witness :
  getAllBooksController no_filter Samples.shelf
  = Listed (map summary_of Samples.shelf)
  ∧ getAllBooksController no_filter
      (addBookController "id-3" Samples.time_2 (Some (Samples.buku_a 100 25))
         Samples.shelf).2
    = Listed (map summary_of Samples.shelf
              ++ [ {| Summary.id := "id-3";
                      Summary.name := Js.VStr "Buku A";
                      Summary.publisher := Js.VStr "Dicoding Indonesia" |} ]).
Proof.
  apply (create_appends_to_the_list "id-3" Samples.time_2
    (Samples.buku_a 100 25) Samples.shelf); [discriminate | reflexivity].
Defined.

End StoreFacts.
